(** * BackgroundMaterial: define-driven readiness and binding

    A shallow embedding of [BackgroundMaterial] (Materials/Background):
    the [fovMultiplier] accessor, [needAlphaBlending], the image-processing
    observer attachment, [isReadyForSubMesh] and [bindForSubMesh], the render
    targets, [unbind], [hasTexture] and [dispose].

    JavaScript objects used as dictionaries (the define set) are finite maps
    from define names to values; calls made on collaborators (engine, scene,
    uniform buffer) are recorded in an event trace. *)

From stdpp Require Import gmap strings list fin_maps pretty.
From Stdlib Require Import QArith Lqa.

Local Open Scope Z_scope.
Local Open Scope string_scope.

(** ** JavaScript numbers

    The methods embedded here only compare numbers ([<], [>], [!==]),
    take [Math.min]/[Math.max] and test [isNaN]; none of them rounds.  A
    number is therefore a NaN, an infinity or an exact rational (every finite
    double is one; the two zeros compare equal, as in JavaScript). *)

Inductive JSNumber : Type :=
| NaN
| NegInfinity
| Num (q : Q)
| PosInfinity.

Definition isNaN (v : JSNumber) : bool :=
  match v with NaN => true | _ => false end.

(** [a < b] *)
Definition js_lt (a b : JSNumber) : bool :=
  match a, b with
  | NaN, _ | _, NaN => false
  | NegInfinity, NegInfinity => false
  | NegInfinity, _ => true
  | _, NegInfinity => false
  | PosInfinity, _ => false
  | Num _, PosInfinity => true
  | Num x, Num y => negb (Qle_bool y x)
  end.

(** [a > b] *)
Definition js_gt (a b : JSNumber) : bool := js_lt b a.

(** [a === b] on numbers *)
Definition js_eq (a b : JSNumber) : bool :=
  match a, b with
  | NegInfinity, NegInfinity | PosInfinity, PosInfinity => true
  | Num x, Num y => Qeq_bool x y
  | _, _ => false
  end.

(** [a !== b] on numbers *)
Definition js_neq (a b : JSNumber) : bool := negb (js_eq a b).

Definition Math_min (a b : JSNumber) : JSNumber :=
  if isNaN a || isNaN b then NaN else if js_lt b a then b else a.

Definition Math_max (a b : JSNumber) : JSNumber :=
  if isNaN a || isNaN b then NaN else if js_lt a b then b else a.

Definition num (z : Z) : JSNumber := Num (inject_Z z).

(** [lo <= v <= hi] for a number that is neither NaN nor infinite. *)
Definition in_range (lo hi : Q) (v : JSNumber) : Prop :=
  match v with
  | Num q => (lo <= q)%Q /\ (q <= hi)%Q
  | _ => False
  end.

(** ** References

    A field of type [Nullable<T>] that the constructor has not assigned yet is
    [undefined]; [===] tells it apart from [null]. *)

Inductive JSRef : Type :=
| Undefined
| Null
| Obj (id : nat).

#[global] Instance JSRef_eq_dec : EqDecision JSRef.
Proof. solve_decision. Defined.

(** [a === b] on references *)
Definition ref_eq (a b : JSRef) : bool := bool_decide (a = b).

(** truthiness of a reference *)
Definition truthy_ref (r : JSRef) : bool :=
  match r with Obj _ => true | _ => false end.

(** ** Textures *)

(** [Texture.*_MODE], the values [coordinatesMode] is compared with.
    [OTHER_MODE] stands for any number that is none of the named constants. *)
Inductive CoordinatesMode : Type :=
| EXPLICIT_MODE
| SPHERICAL_MODE
| PLANAR_MODE
| CUBIC_MODE
| PROJECTION_MODE
| SKYBOX_MODE
| INVCUBIC_MODE
| EQUIRECTANGULAR_MODE
| FIXED_EQUIRECTANGULAR_MODE
| FIXED_EQUIRECTANGULAR_MIRRORED_MODE
| OTHER_MODE.

#[global] Instance CoordinatesMode_eq_dec : EqDecision CoordinatesMode.
Proof. solve_decision. Defined.

(** What the material reads from a [BaseTexture] during one call. *)
Record BaseTexture : Type := {
  textureId : nat;
  isReadyOrNotBlocking : bool;
  hasAlpha : bool;
  gammaSpace : bool;
  isRGBD : bool;
  lodLevelInAlpha : bool;
  isCube : bool;
  invertZ : bool;
  isRenderTarget : bool;
  coordinatesMode : CoordinatesMode;
  coordinatesIndex : JSNumber;
  level : JSNumber;
  sizeWidth : JSNumber;
  lodGenerationScale : JSNumber;
  lodGenerationOffset : JSNumber;
  _lodTextureLow : option nat;
  _lodTextureMid : option nat;
  _lodTextureHigh : option nat
}.

(** ** The define set *)

Inductive DefineValue : Type :=
| VBool (b : bool)
| VNum (n : Z).

#[global] Instance DefineValue_eq_dec : EqDecision DefineValue.
Proof. solve_decision. Defined.

(** The public defines are the entries of [values]; the underscore fields
    are the bookkeeping of the [MaterialDefines] base class that
    [BackgroundMaterial] reads or writes. *)
Record MaterialDefines : Type := mkDefines {
  values : gmap string DefineValue;
  _isDirty : bool;
  _areTexturesDirty : bool;
  _areLightsDirty : bool;
  _areImageProcessingDirty : bool;
  _areMiscDirty : bool;
  _needNormals : bool;
  _needUVs : bool;
  _renderId : Z
}.

(** [defines.K = v] *)
Definition setDefine (k : string) (v : DefineValue) (d : MaterialDefines) : MaterialDefines :=
  mkDefines (<[k := v]> (values d)) (_isDirty d) (_areTexturesDirty d)
    (_areLightsDirty d) (_areImageProcessingDirty d) (_areMiscDirty d)
    (_needNormals d) (_needUVs d) (_renderId d).

Definition setBool (k : string) (b : bool) : MaterialDefines -> MaterialDefines :=
  setDefine k (VBool b).

(** truthiness of [defines.K] *)
Definition isSet (d : MaterialDefines) (k : string) : bool :=
  match values d !! k with
  | Some (VBool b) => b
  | Some (VNum n) => negb (Z.eqb n 0)
  | None => false
  end.

Definition set_needNormals (b : bool) (d : MaterialDefines) : MaterialDefines :=
  mkDefines (values d) (_isDirty d) (_areTexturesDirty d) (_areLightsDirty d)
    (_areImageProcessingDirty d) (_areMiscDirty d) b (_needUVs d) (_renderId d).

Definition set_needUVs (b : bool) (d : MaterialDefines) : MaterialDefines :=
  mkDefines (values d) (_isDirty d) (_areTexturesDirty d) (_areLightsDirty d)
    (_areImageProcessingDirty d) (_areMiscDirty d) (_needNormals d) b (_renderId d).

Definition set_renderId (r : Z) (d : MaterialDefines) : MaterialDefines :=
  mkDefines (values d) (_isDirty d) (_areTexturesDirty d) (_areLightsDirty d)
    (_areImageProcessingDirty d) (_areMiscDirty d) (_needNormals d) (_needUVs d) r.

(** Modelled from the spec: [MaterialDefines.markAsProcessed] belongs to
    another module; the dirty flags are "cleared after the define set is
    recomputed and the cache consulted". *)
Definition markAsProcessed (d : MaterialDefines) : MaterialDefines :=
  mkDefines (values d) false false false false false
    (_needNormals d) (_needUVs d) (_renderId d).

(** Modelled from the spec: [markDirty(partition)] "sets the partition's
    dirty flag"; the define set as a whole becomes dirty with it. *)
Definition markAsTexturesDirty (d : MaterialDefines) : MaterialDefines :=
  mkDefines (values d) true true (_areLightsDirty d) (_areImageProcessingDirty d)
    (_areMiscDirty d) (_needNormals d) (_needUVs d) (_renderId d).

(** The defaults declared by [class BackgroundMaterialDefines], in the order
    of the declaration. *)
Definition declaredDefines : list (string * DefineValue) :=
  [ ("DIFFUSE", VBool false); ("DIFFUSEDIRECTUV", VNum 0);
    ("GAMMADIFFUSE", VBool false); ("DIFFUSEHASALPHA", VBool false);
    ("OPACITYFRESNEL", VBool false); ("REFLECTIONBLUR", VBool false);
    ("REFLECTIONFRESNEL", VBool false); ("REFLECTIONFALLOFF", VBool false);
    ("TEXTURELODSUPPORT", VBool false); ("PREMULTIPLYALPHA", VBool false);
    ("USERGBCOLOR", VBool false); ("USEHIGHLIGHTANDSHADOWCOLORS", VBool false);
    ("BACKMAT_SHADOWONLY", VBool false); ("NOISE", VBool false);
    ("REFLECTIONBGR", VBool false); ("PROJECTED_GROUND", VBool false);
    ("IMAGEPROCESSING", VBool false); ("VIGNETTE", VBool false);
    ("VIGNETTEBLENDMODEMULTIPLY", VBool false);
    ("VIGNETTEBLENDMODEOPAQUE", VBool false); ("TONEMAPPING", VNum 0);
    ("CONTRAST", VBool false); ("COLORCURVES", VBool false);
    ("COLORGRADING", VBool false); ("COLORGRADING3D", VBool false);
    ("SAMPLER3DGREENDEPTH", VBool false); ("SAMPLER3DBGRMAP", VBool false);
    ("DITHER", VBool false); ("IMAGEPROCESSINGPOSTPROCESS", VBool false);
    ("SKIPFINALCOLORCLAMP", VBool false); ("EXPOSURE", VBool false);
    ("MULTIVIEW", VBool false);
    ("REFLECTION", VBool false); ("REFLECTIONMAP_3D", VBool false);
    ("REFLECTIONMAP_SPHERICAL", VBool false); ("REFLECTIONMAP_PLANAR", VBool false);
    ("REFLECTIONMAP_CUBIC", VBool false); ("REFLECTIONMAP_PROJECTION", VBool false);
    ("REFLECTIONMAP_SKYBOX", VBool false); ("REFLECTIONMAP_EXPLICIT", VBool false);
    ("REFLECTIONMAP_EQUIRECTANGULAR", VBool false);
    ("REFLECTIONMAP_EQUIRECTANGULAR_FIXED", VBool false);
    ("REFLECTIONMAP_MIRROREDEQUIRECTANGULAR_FIXED", VBool false);
    ("INVERTCUBICMAP", VBool false); ("REFLECTIONMAP_OPPOSITEZ", VBool false);
    ("LODINREFLECTIONALPHA", VBool false); ("GAMMAREFLECTION", VBool false);
    ("RGBDREFLECTION", VBool false); ("EQUIRECTANGULAR_RELFECTION_FOV", VBool false);
    ("MAINUV1", VBool false); ("MAINUV2", VBool false);
    ("UV1", VBool false); ("UV2", VBool false);
    ("CLIPPLANE", VBool false); ("CLIPPLANE2", VBool false);
    ("CLIPPLANE3", VBool false); ("CLIPPLANE4", VBool false);
    ("CLIPPLANE5", VBool false); ("CLIPPLANE6", VBool false);
    ("POINTSIZE", VBool false); ("FOG", VBool false); ("NORMAL", VBool false);
    ("NUM_BONE_INFLUENCERS", VNum 0); ("BonesPerMesh", VNum 0);
    ("INSTANCES", VBool false); ("SHADOWFLOAT", VBool false);
    ("LOGARITHMICDEPTH", VBool false); ("NONUNIFORMSCALING", VBool false);
    ("ALPHATEST", VBool false) ].

(** Modelled from the spec: [new BackgroundMaterialDefines()]; the state of
    the base class for a new define set belongs to another module; a
    define set is "created once per drawable the first time it is rendered"
    and has not been processed, so every partition starts dirty. *)
Definition newBackgroundMaterialDefines : MaterialDefines :=
  mkDefines (list_to_map declaredDefines) true true true true true false false (-1).

(** The reflection sub-mode defines: one per coordinates mode, and the
    inverted-cube flag. *)
Definition reflectionSubmodes : list string :=
  [ "REFLECTIONMAP_EXPLICIT"; "REFLECTIONMAP_PLANAR"; "REFLECTIONMAP_PROJECTION";
    "REFLECTIONMAP_SKYBOX"; "REFLECTIONMAP_SPHERICAL"; "REFLECTIONMAP_EQUIRECTANGULAR";
    "REFLECTIONMAP_EQUIRECTANGULAR_FIXED"; "REFLECTIONMAP_MIRROREDEQUIRECTANGULAR_FIXED";
    "REFLECTIONMAP_CUBIC"; "INVERTCUBICMAP" ].

(** ** Collaborator objects *)

Record Vector3 : Type := { v3x : JSNumber; v3y : JSNumber; v3z : JSNumber }.

Record Vector4 : Type := {
  v4x : JSNumber; v4y : JSNumber; v4z : JSNumber; v4w : JSNumber }.

(** A compiled program handle; [effectIsReady] is what [effect.isReady()]
    answers during the call. *)
Record Effect : Type := { effectId : nat; effectIsReady : bool }.

(** An observer registered on an [Observable]; the callback that
    [_attachImageProcessingConfiguration] registers closes over [this], so an
    observer notifies the material whose [uniqueId] is [observerOwner]. *)
Record Observer : Type := { observerId : nat; observerOwner : nat }.

#[global] Instance Observer_eq_dec : EqDecision Observer.
Proof. solve_decision. Defined.

(** The [onUpdateParameters] observable of every image-processing
    configuration, by the identity of the configuration. *)
Record Observables : Type := {
  onUpdateParameters : gmap nat (list Observer);
  nextObserverId : nat
}.

(** [getEngine().getCaps()] and [getEngine()._features] *)
Record Engine : Type := {
  textureLOD : bool;
  standardDerivatives : bool;
  needToAlwaysBindUniformBuffers : bool
}.

(** The static switches of [MaterialFlags]. *)
Record MaterialFlags : Type := {
  DiffuseTextureEnabled : bool;
  ReflectionTextureEnabled : bool
}.

(** What the material reads from the scene and the objects reachable from it
    during one call. *)
Record Scene : Type := {
  getEngine : Engine;
  texturesEnabled : bool;
  lightsEnabled : bool;
  useRightHandedSystem : bool;
  getRenderId : Z;
  imageProcessingConfiguration : JSRef;
  (** [isReady()] of the configuration with the given identity *)
  imageProcessingIsReady : nat -> bool
}.

Record Mesh : Type := {
  meshName : string;
  visibility : JSNumber;
  (** [isVerticesDataPresent(VertexBuffer.NormalKind)] *)
  normalsPresent : bool
}.

Record DrawWrapper : Type := {
  effect : option Effect;
  _wasPreviouslyReady : bool;
  _wasPreviouslyUsingInstances : option bool;
  _forceRebindOnNextCall : bool
}.

Record SubMesh : Type := {
  _drawWrapper : DrawWrapper;
  materialDefines : option MaterialDefines;
  (** [getRenderingMesh().hasThinInstances] *)
  hasThinInstances : bool
}.

(** ** The material *)

(** [Constants.ALPHA_PREMULTIPLIED] and
    [Constants.ALPHA_PREMULTIPLIED_PORTERDUFF] *)
Definition ALPHA_PREMULTIPLIED : Z := 7.
Definition ALPHA_PREMULTIPLIED_PORTERDUFF : Z := 8.

(** The fields inherited from [Material] and [PushMaterial], and the state
    of the material's uniform buffer, that the methods below read. *)
Record PushMaterial : Type := {
  uniqueId : nat;
  alpha : JSNumber;
  alphaMode : Z;
  isFrozen : bool;
  pointsCloud : bool;
  pointSize : JSNumber;
  fogEnabled : bool;
  _useLogarithmicDepth : bool;
  useUbo : bool;
  isSync : bool
}.

(** The properties of the material that the embedded methods only read. *)
Record BackgroundProperties : Type := {
  _primaryColorShadowLevel : JSNumber;
  _primaryColorHighlightLevel : JSNumber;
  _reflectionTexture : option BaseTexture;
  _reflectionBlur : JSNumber;
  _diffuseTexture : option BaseTexture;
  shadowLevel : JSNumber;
  sceneCenter : Vector3;
  _opacityFresnel : bool;
  reflectionFresnel : bool;
  reflectionFalloffDistance : JSNumber;
  reflectionAmount : JSNumber;
  reflectionReflectance0 : JSNumber;
  reflectionReflectance90 : JSNumber;
  _useRGBColor : bool;
  _enableNoise : bool;
  useEquirectangularFOV : bool;
  _maxSimultaneousLights : Z;
  _shadowOnly : bool;
  switchToBGR : bool;
  _enableGroundProjection : bool;
  projectedGroundRadius : JSNumber;
  projectedGroundHeight : JSNumber
}.

Record BackgroundMaterial : Type := mkMaterial {
  inherited : PushMaterial;
  properties : BackgroundProperties;
  _fovMultiplier : JSNumber;
  _imageProcessingConfiguration : JSRef;
  _imageProcessingObserver : option Observer;
  _reflectionControls : Vector4;
  _activeEffect : option Effect;
  _needToBindSceneUbo : bool
}.

Definition set_fovMultiplierField (v : JSNumber) (m : BackgroundMaterial) : BackgroundMaterial :=
  mkMaterial (inherited m) (properties m) v (_imageProcessingConfiguration m)
    (_imageProcessingObserver m) (_reflectionControls m) (_activeEffect m)
    (_needToBindSceneUbo m).

Definition set_imageProcessing (c : JSRef) (o : option Observer)
    (m : BackgroundMaterial) : BackgroundMaterial :=
  mkMaterial (inherited m) (properties m) (_fovMultiplier m) c o
    (_reflectionControls m) (_activeEffect m) (_needToBindSceneUbo m).

Definition set_reflectionControls (v : Vector4) (m : BackgroundMaterial) : BackgroundMaterial :=
  mkMaterial (inherited m) (properties m) (_fovMultiplier m)
    (_imageProcessingConfiguration m) (_imageProcessingObserver m) v
    (_activeEffect m) (_needToBindSceneUbo m).

Definition set_activeEffect (e : option Effect) (m : BackgroundMaterial) : BackgroundMaterial :=
  mkMaterial (inherited m) (properties m) (_fovMultiplier m)
    (_imageProcessingConfiguration m) (_imageProcessingObserver m)
    (_reflectionControls m) e (_needToBindSceneUbo m).

Definition set_needToBindSceneUbo (b : bool) (m : BackgroundMaterial) : BackgroundMaterial :=
  mkMaterial (inherited m) (properties m) (_fovMultiplier m)
    (_imageProcessingConfiguration m) (_imageProcessingObserver m)
    (_reflectionControls m) (_activeEffect m) b.

(** *** [fovMultiplier] *)

(** [get fovMultiplier()] *)
Definition fovMultiplier (m : BackgroundMaterial) : JSNumber := _fovMultiplier m.

(** [set fovMultiplier(value)] *)
Definition set_fovMultiplier (value : JSNumber) (m : BackgroundMaterial) : BackgroundMaterial :=
  let value := if isNaN value then num 1 else value in
  set_fovMultiplierField (Math_max (num 0) (Math_min (num 2) value)) m.

(** *** [needAlphaBlending] *)

Definition needAlphaBlending (m : BackgroundMaterial) : bool :=
  js_lt (alpha (inherited m)) (num 1)
  || match _diffuseTexture (properties m) with
     | Some t => hasAlpha t
     | None => false
     end
  || _shadowOnly (properties m).

(** *** The image-processing observer *)

(** Modelled from the spec: [Observable.add] belongs to another module; subscribing appends a new observer to the configuration's
    observable and returns it. *)
Definition observable_add (c owner : nat) (w : Observables) : Observer * Observables :=
  let o := {| observerId := nextObserverId w; observerOwner := owner |} in
  (o, {| onUpdateParameters :=
           <[c := ((onUpdateParameters w !!! c) ++ [o])%list]> (onUpdateParameters w);
         nextObserverId := S (nextObserverId w) |}).

(** [array.splice(array.indexOf(o), 1)] when [o] is in the array *)
Fixpoint removeFirst (o : Observer) (l : list Observer) : list Observer :=
  match l with
  | [] => []
  | x :: l' => if decide (x = o) then l' else x :: removeFirst o l'
  end.

(** Modelled from the spec: [Observable.remove] belongs to another
    module; unsubscribing takes the observer out of the configuration's
    observable. *)
Definition observable_remove (c : nat) (o : Observer) (w : Observables) : Observables :=
  {| onUpdateParameters :=
       <[c := removeFirst o (onUpdateParameters w !!! c)]> (onUpdateParameters w);
     nextObserverId := nextObserverId w |}.

(** The observers through which configuration [c] notifies the material
    [uid]: one notification per element. *)
Definition observersOf (uid : nat) (w : Observables) (c : nat) : list Observer :=
  filter (fun o => observerOwner o = uid) (onUpdateParameters w !!! c).

(** [_attachImageProcessingConfiguration(configuration)];
    [sceneConfiguration] is [this.getScene().imageProcessingConfiguration]. *)
Definition _attachImageProcessingConfiguration (sceneConfiguration configuration : JSRef)
    (s : BackgroundMaterial * Observables) : BackgroundMaterial * Observables :=
  let '(m, w) := s in
  if ref_eq configuration (_imageProcessingConfiguration m) then (m, w)
  else
    (* Detaches observer. *)
    let w1 :=
      match _imageProcessingConfiguration m, _imageProcessingObserver m with
      | Obj c, Some o => observable_remove c o w
      | _, _ => w
      end in
    (* Pick the scene configuration if needed. *)
    let picked :=
      if negb (truthy_ref configuration) then sceneConfiguration else configuration in
    (* Attaches observer. *)
    match picked with
    | Obj c =>
        let '(o, w2) := observable_add c (uniqueId (inherited m)) w1 in
        (set_imageProcessing picked (Some o) m, w2)
    | _ => (set_imageProcessing picked (_imageProcessingObserver m) m, w1)
    end.

(** [set imageProcessingConfiguration(value)]: attaches, then marks the
    textures partition of every sub-mesh's define set dirty. *)
Definition set_imageProcessingConfiguration (sceneConfiguration value : JSRef)
    (s : BackgroundMaterial * Observables) (subMeshDefines : list MaterialDefines)
    : BackgroundMaterial * Observables * list MaterialDefines :=
  (_attachImageProcessingConfiguration sceneConfiguration value s,
   map markAsTexturesDirty subMeshDefines).

(** The part of [dispose] that concerns the observer. *)
Definition dispose (s : BackgroundMaterial * Observables) : BackgroundMaterial * Observables :=
  let '(m, w) := s in
  match _imageProcessingConfiguration m, _imageProcessingObserver m with
  | Obj c, Some o => (m, observable_remove c o w)
  | _, _ => (m, w)
  end.

(** The defaults the class body gives the properties. *)
Definition defaultProperties : BackgroundProperties :=
  {| _primaryColorShadowLevel := num 0;
     _primaryColorHighlightLevel := num 0;
     _reflectionTexture := None;
     _reflectionBlur := num 0;
     _diffuseTexture := None;
     shadowLevel := num 0;
     sceneCenter := {| v3x := num 0; v3y := num 0; v3z := num 0 |};
     _opacityFresnel := true;
     reflectionFresnel := false;
     reflectionFalloffDistance := num 0;
     reflectionAmount := num 1;
     reflectionReflectance0 := Num (5 # 100);
     reflectionReflectance90 := Num (5 # 10);
     _useRGBColor := true;
     _enableNoise := false;
     useEquirectangularFOV := false;
     _maxSimultaneousLights := 4;
     _shadowOnly := false;
     switchToBGR := false;
     _enableGroundProjection := false;
     projectedGroundRadius := num 1000;
     projectedGroundHeight := num 10 |}.

(** The fields of a material before the constructor body runs: the
    initialisers of the class body, [_imageProcessingConfiguration] still
    unassigned. *)
Definition initialMaterial (super : PushMaterial) : BackgroundMaterial :=
  {| inherited := super;
     properties := defaultProperties;
     _fovMultiplier := num 1;
     _imageProcessingConfiguration := Undefined;
     _imageProcessingObserver := None;
     _reflectionControls := {| v4x := num 0; v4y := num 0; v4z := num 0; v4w := num 0 |};
     _activeEffect := None;
     _needToBindSceneUbo := false |}.

(** [new BackgroundMaterial(name, scene)]: sets up the default processing
    configuration of the scene. *)
Definition newBackgroundMaterial (super : PushMaterial) (sceneConfiguration : JSRef)
    (w : Observables) : BackgroundMaterial * Observables :=
  _attachImageProcessingConfiguration sceneConfiguration Null (initialMaterial super, w).

(** The states a material and the observables go through: construction in a
    world that holds no observer of the new material yet, then any sequence
    of attachments, assignments to [imageProcessingConfiguration] and
    [dispose]. *)
Inductive Reachable (uid : nat) : BackgroundMaterial * Observables -> Prop :=
| reach_new super sceneConfiguration w :
    uniqueId super = uid ->
    (forall c, observersOf uid w c = []) ->
    Reachable uid (newBackgroundMaterial super sceneConfiguration w)
| reach_attach sceneConfiguration configuration s :
    Reachable uid s ->
    Reachable uid (_attachImageProcessingConfiguration sceneConfiguration configuration s)
| reach_set sceneConfiguration value s defs :
    Reachable uid s ->
    Reachable uid (set_imageProcessingConfiguration sceneConfiguration value s defs).1
| reach_dispose s :
    Reachable uid s ->
    Reachable uid (dispose s).

(** ** Effect creation *)

(** Modelled from the spec: [EffectFallbacks] belongs to another module.  A fallback list holds the defines to drop, each with the rank given
    to [addFallback], in the order they were added, and the mesh that may fall
    back to CPU skinning. *)
Record EffectFallbacks : Type := {
  fallbackDefines : list (Z * string);
  cpuSkinningFallback : option (Z * string)
}.

Definition newEffectFallbacks : EffectFallbacks :=
  {| fallbackDefines := []; cpuSkinningFallback := None |}.

Definition addFallback (rank : Z) (define : string) (f : EffectFallbacks) : EffectFallbacks :=
  {| fallbackDefines := (fallbackDefines f ++ [(rank, define)])%list;
     cpuSkinningFallback := cpuSkinningFallback f |}.

(** Modelled from the spec: "ascending priority number = disabled first";
    defines of one rank keep the order in which they were added. *)
Fixpoint insertByRank (e : Z * string) (l : list (Z * string)) : list (Z * string) :=
  match l with
  | [] => [e]
  | x :: l' => if Z.ltb e.1 x.1 then e :: x :: l' else x :: insertByRank e l'
  end.

Definition disableOrder (f : EffectFallbacks) : list string :=
  map snd (foldl (fun acc e => insertByRank e acc) [] (fallbackDefines f)).

(** The position of a define in a list of defines. *)
Definition positionOf (define : string) (l : list string) : option nat :=
  fst <$> list_find (fun x => x = define) l.

(** The options handed to [engine.createEffect]; the callbacks, the shader
    language and the deferred shader import are left out. *)
Record EffectCreationOptions : Type := {
  attributes : list string;
  uniformsNames : list string;
  uniformBuffersNames : list string;
  samplers : list string;
  defines : string;
  fallbacks : EffectFallbacks;
  indexParameters : Z
}.

Inductive ColorSource : Type :=
| PrimaryColor
| PrimaryShadowColor
| PrimaryHighlightColor.

(** The calls a method makes on its collaborators, in order. *)
Inductive Event : Type :=
| ResetCachedMaterial
| CreateEffect (baseName : string) (options : EffectCreationOptions)
| AddUniform (name : string) (size : Z)
| UniformBufferCreate
| CreateNormals
| LoggerWarn (message : string)
| CheckScenePerformancePriority
| SetMatrix (name : string)
| BindToEffect (name : string)
| UpdateFloat (name : string) (x : JSNumber)
| UpdateFloat2 (name : string) (x y : JSNumber)
| UpdateFloat3 (name : string) (x y z : JSNumber)
| UpdateFloat4 (name : string) (x y z w : JSNumber)
| UpdateMatrix (name : string)
| UpdateColor4 (name : string) (color : ColorSource) (a : JSNumber)
| SetTexture (sampler : string) (texture : nat)
| UniformBufferUpdate
| Call (helper : string).

(** [updateFloat], [updateFloat2], [updateFloat3], [updateFloat4],
    [updateMatrix] and [updateColor4] on the uniform buffer. *)
Definition isUniformUpload (e : Event) : bool :=
  match e with
  | UpdateFloat _ _ | UpdateFloat2 _ _ _ | UpdateFloat3 _ _ _ _
  | UpdateFloat4 _ _ _ _ _ | UpdateMatrix _ | UpdateColor4 _ _ _ => true
  | _ => false
  end.

Definition isSetTexture (e : Event) : bool :=
  match e with SetTexture _ _ => true | _ => false end.

Definition isCreateEffect (e : Event) : bool :=
  match e with CreateEffect _ _ => true | _ => false end.

(** [VertexBuffer.*Kind] *)
Definition PositionKind : string := "position".
Definition NormalKind : string := "normal".
Definition UVKind : string := "uv".
Definition UV2Kind : string := "uv2".

(** ** Helpers of other modules

    [materialHelper.functions], the [PushMaterial] base class, the
    image-processing configuration and the engine are taken as parameters of
    the development.  A helper that writes into the define set is a function
    on define sets. *)
Class Collaborators : Type := {
  (** [defines.toString()] *)
  toString : gmap string DefineValue -> string;
  (** [1 / x] *)
  reciprocal : JSNumber -> JSNumber;
  _isReadyForSubMesh : BackgroundMaterial -> Scene -> SubMesh -> bool;
  needAlphaTestingForMesh : BackgroundMaterial -> Mesh -> bool;
  PrepareDefinesForLights : Scene -> Mesh -> MaterialDefines -> Z -> MaterialDefines;
  PrepareDefinesForMultiview : Scene -> MaterialDefines -> MaterialDefines;
  PrepareDefinesForMergedUV : BaseTexture -> MaterialDefines -> string -> MaterialDefines;
  (** [configuration.prepareDefines(defines)] *)
  prepareDefines : nat -> MaterialDefines -> MaterialDefines;
  PrepareDefinesForMisc :
    Mesh -> Scene -> bool -> bool -> bool -> bool -> MaterialDefines -> MaterialDefines;
  PrepareDefinesForFrameBoundValues :
    Scene -> BackgroundMaterial -> MaterialDefines -> bool -> bool -> MaterialDefines;
  PrepareDefinesForAttributes : Mesh -> MaterialDefines -> bool * MaterialDefines;
  HandleFallbacksForShadows : MaterialDefines -> EffectFallbacks -> Z -> EffectFallbacks;
  PrepareAttributesForBones :
    list string -> Mesh -> MaterialDefines -> EffectFallbacks -> list string * EffectFallbacks;
  PrepareAttributesForInstances : list string -> MaterialDefines -> list string;
  AddClipPlaneUniforms : list string -> list string;
  (** [ImageProcessingConfiguration.PrepareUniforms] and [PrepareSamplers] *)
  PrepareUniforms : list string -> MaterialDefines -> list string;
  PrepareSamplers : list string -> MaterialDefines -> list string;
  (** uniforms, uniform buffers and samplers, before and after *)
  PrepareUniformsAndSamplersList :
    list string * list string * list string -> MaterialDefines -> Z ->
    list string * list string * list string;
  (** the effect [engine.createEffect] answers with *)
  createEffect : string -> EffectCreationOptions -> Effect;
  _mustRebind : Scene -> Effect -> SubMesh -> JSNumber -> bool
}.

(** ** [isReadyForSubMesh] *)

(** A partition refresh either stops the readiness check or goes on; the
    define set was written in place up to that point in both cases. *)
Inductive Partition (A : Type) : Type :=
| NotReady (a : A)
| Refreshed (a : A).
Arguments NotReady {A} a.
Arguments Refreshed {A} a.

Notation "d '|>' f" := (f d) (at level 45, left associativity, only parsing).

Section Readiness.
Context `{Collaborators}.

(** The diffuse half of the textures partition. *)
Definition diffuseDefines (flags : MaterialFlags) (m : BackgroundMaterial)
    (d : MaterialDefines) : Partition MaterialDefines :=
  match _diffuseTexture (properties m), DiffuseTextureEnabled flags with
  | Some t, true =>
      if negb (isReadyOrNotBlocking t) then NotReady d
      else
        Refreshed
          (PrepareDefinesForMergedUV t d "DIFFUSE"
           |> setBool "DIFFUSEHASALPHA" (hasAlpha t)
           |> setBool "GAMMADIFFUSE" (gammaSpace t)
           |> setBool "OPACITYFRESNEL" (_opacityFresnel (properties m)))
  | _, _ =>
      Refreshed
        (d |> setBool "DIFFUSE" false
           |> setDefine "DIFFUSEDIRECTUV" (VNum 0)
           |> setBool "DIFFUSEHASALPHA" false
           |> setBool "GAMMADIFFUSE" false
           |> setBool "OPACITYFRESNEL" false)
  end.

(** The define the [switch] on [coordinatesMode] sets. *)
Definition reflectionModeDefine (mode : CoordinatesMode) : string :=
  match mode with
  | EXPLICIT_MODE => "REFLECTIONMAP_EXPLICIT"
  | PLANAR_MODE => "REFLECTIONMAP_PLANAR"
  | PROJECTION_MODE => "REFLECTIONMAP_PROJECTION"
  | SKYBOX_MODE => "REFLECTIONMAP_SKYBOX"
  | SPHERICAL_MODE => "REFLECTIONMAP_SPHERICAL"
  | EQUIRECTANGULAR_MODE => "REFLECTIONMAP_EQUIRECTANGULAR"
  | FIXED_EQUIRECTANGULAR_MODE => "REFLECTIONMAP_EQUIRECTANGULAR_FIXED"
  | FIXED_EQUIRECTANGULAR_MIRRORED_MODE => "REFLECTIONMAP_MIRROREDEQUIRECTANGULAR_FIXED"
  | CUBIC_MODE | INVCUBIC_MODE | OTHER_MODE => "REFLECTIONMAP_CUBIC"
  end.

(** The reflection half of the textures partition; it also refreshes
    [_reflectionControls]. *)
Definition reflectionDefines (scene : Scene) (flags : MaterialFlags)
    (m : BackgroundMaterial) (d : MaterialDefines)
    : Partition (MaterialDefines * BackgroundMaterial) :=
  let p := properties m in
  match _reflectionTexture p, ReflectionTextureEnabled flags with
  | Some reflectionTexture, true =>
      if negb (isReadyOrNotBlocking reflectionTexture) then NotReady (d, m)
      else
        let d :=
          d |> setBool "REFLECTION" true
            |> setBool "GAMMAREFLECTION" (gammaSpace reflectionTexture)
            |> setBool "RGBDREFLECTION" (isRGBD reflectionTexture)
            |> setBool "REFLECTIONBLUR" (js_gt (_reflectionBlur p) (num 0))
            |> setBool "LODINREFLECTIONALPHA" (lodLevelInAlpha reflectionTexture)
            |> setBool "EQUIRECTANGULAR_RELFECTION_FOV" (useEquirectangularFOV p)
            |> setBool "REFLECTIONBGR" (switchToBGR p) in
        let d :=
          if decide (coordinatesMode reflectionTexture = INVCUBIC_MODE)
          then setBool "INVERTCUBICMAP" true d else d in
        let d := setBool "REFLECTIONMAP_3D" (isCube reflectionTexture) d in
        let d :=
          setBool "REFLECTIONMAP_OPPOSITEZ"
            (if isSet d "REFLECTIONMAP_3D" && useRightHandedSystem scene
             then negb (invertZ reflectionTexture) else invertZ reflectionTexture) d in
        let d := setBool (reflectionModeDefine (coordinatesMode reflectionTexture)) true d in
        if reflectionFresnel p then
          Refreshed
            (d |> setBool "REFLECTIONFRESNEL" true
               |> setBool "REFLECTIONFALLOFF" (js_gt (reflectionFalloffDistance p) (num 0)),
             set_reflectionControls
               {| v4x := reflectionAmount p;
                  v4y := reflectionReflectance0 p;
                  v4z := reflectionReflectance90 p;
                  v4w := reciprocal (reflectionFalloffDistance p) |} m)
        else
          Refreshed
            (d |> setBool "REFLECTIONFRESNEL" false
               |> setBool "REFLECTIONFALLOFF" false, m)
  | _, _ =>
      Refreshed
        (d |> setBool "REFLECTION" false
           |> setBool "REFLECTIONFRESNEL" false
           |> setBool "REFLECTIONFALLOFF" false
           |> setBool "REFLECTIONBLUR" false
           |> setBool "REFLECTIONMAP_3D" false
           |> setBool "REFLECTIONMAP_SPHERICAL" false
           |> setBool "REFLECTIONMAP_PLANAR" false
           |> setBool "REFLECTIONMAP_CUBIC" false
           |> setBool "REFLECTIONMAP_PROJECTION" false
           |> setBool "REFLECTIONMAP_SKYBOX" false
           |> setBool "REFLECTIONMAP_EXPLICIT" false
           |> setBool "REFLECTIONMAP_EQUIRECTANGULAR" false
           |> setBool "REFLECTIONMAP_EQUIRECTANGULAR_FIXED" false
           |> setBool "REFLECTIONMAP_MIRROREDEQUIRECTANGULAR_FIXED" false
           |> setBool "INVERTCUBICMAP" false
           |> setBool "REFLECTIONMAP_OPPOSITEZ" false
           |> setBool "LODINREFLECTIONALPHA" false
           |> setBool "GAMMAREFLECTION" false
           |> setBool "RGBDREFLECTION" false, m)
  end.

(** The three assignments that close the textures partition. *)
Definition textureFlagsDefines (m : BackgroundMaterial) (d : MaterialDefines) : MaterialDefines :=
  d |> setBool "PREMULTIPLYALPHA"
         (bool_decide (alphaMode (inherited m) = ALPHA_PREMULTIPLIED)
          || bool_decide (alphaMode (inherited m) = ALPHA_PREMULTIPLIED_PORTERDUFF))
    |> setBool "USERGBCOLOR" (_useRGBColor (properties m))
    |> setBool "NOISE" (_enableNoise (properties m)).

(** The body of [if (defines._areTexturesDirty)]. *)
Definition texturesPartition (scene : Scene) (flags : MaterialFlags)
    (m : BackgroundMaterial) (d : MaterialDefines)
    : Partition (MaterialDefines * BackgroundMaterial) :=
  let d := set_needUVs false d in
  if texturesEnabled scene then
    let d := if textureLOD (getEngine scene) then setBool "TEXTURELODSUPPORT" true d else d in
    match diffuseDefines flags m d with
    | NotReady d => NotReady (d, m)
    | Refreshed d =>
        match reflectionDefines scene flags m d with
        | NotReady x => NotReady x
        | Refreshed (d, m) => Refreshed (textureFlagsDefines m d, m)
        end
    end
  else Refreshed (textureFlagsDefines m d, m).

(** The body of [if (defines._areLightsDirty)]. *)
Definition lightsPartition (m : BackgroundMaterial) (d : MaterialDefines) : MaterialDefines :=
  let p := properties m in
  d |> setBool "USEHIGHLIGHTANDSHADOWCOLORS"
         (negb (_useRGBColor p)
          && (js_neq (_primaryColorShadowLevel p) (num 0)
              || js_neq (_primaryColorHighlightLevel p) (num 0)))
    |> setBool "BACKMAT_SHADOWONLY" (_shadowOnly p).

(** [if (defines._areImageProcessingDirty && this._imageProcessingConfiguration)] *)
Definition imageProcessingPartition (scene : Scene) (m : BackgroundMaterial)
    (d : MaterialDefines) : Partition MaterialDefines :=
  match _areImageProcessingDirty d, _imageProcessingConfiguration m with
  | true, Obj c =>
      if negb (imageProcessingIsReady scene c) then NotReady d
      else Refreshed (prepareDefines c d)
  | _, _ => Refreshed d
  end.

(** The body of [if (defines._areMiscDirty)]. *)
Definition miscPartition (m : BackgroundMaterial) (d : MaterialDefines) : MaterialDefines :=
  if isSet d "REFLECTIONMAP_3D" && _enableGroundProjection (properties m) then
    d |> setBool "PROJECTED_GROUND" true |> setBool "REFLECTIONMAP_SKYBOX" true
  else setBool "PROJECTED_GROUND" false d.

(** The fallbacks the material registers itself, before the helpers add
    theirs. *)
Definition ownFallbacks (d : MaterialDefines) : EffectFallbacks :=
  let fallbacks := newEffectFallbacks in
  let fallbacks := if isSet d "FOG" then addFallback 0 "FOG" fallbacks else fallbacks in
  let fallbacks :=
    if isSet d "POINTSIZE" then addFallback 1 "POINTSIZE" fallbacks else fallbacks in
  if isSet d "MULTIVIEW" then addFallback 0 "MULTIVIEW" fallbacks else fallbacks.

Definition ownAttributes (d : MaterialDefines) : list string :=
  let attribs := [PositionKind] in
  let attribs := if isSet d "NORMAL" then (attribs ++ [NormalKind])%list else attribs in
  let attribs := if isSet d "UV1" then (attribs ++ [UVKind])%list else attribs in
  if isSet d "UV2" then (attribs ++ [UV2Kind])%list else attribs.

Definition ownUniforms : list string :=
  [ "world"; "view"; "viewProjection"; "vEyePosition"; "vLightsType"; "vFogInfos";
    "vFogColor"; "pointSize"; "mBones";
    "vPrimaryColor"; "vPrimaryColorShadow"; "vReflectionInfos"; "reflectionMatrix";
    "vReflectionMicrosurfaceInfos"; "fFovMultiplier";
    "shadowLevel"; "alpha";
    "vBackgroundCenter"; "vReflectionControl";
    "vDiffuseInfos"; "diffuseMatrix";
    "projectedGroundInfos"; "logarithmicDepthConstant" ].

Definition ownSamplers : list string :=
  [ "diffuseSampler"; "reflectionSampler"; "reflectionSamplerLow"; "reflectionSamplerHigh" ].

(** The options of the compile request for the define set [d]. *)
Definition effectCreationOptions (m : BackgroundMaterial) (mesh : Mesh)
    (d : MaterialDefines) : EffectCreationOptions :=
  let maxLights := _maxSimultaneousLights (properties m) in
  let fallbacks := HandleFallbacksForShadows d (ownFallbacks d) maxLights in
  let '(attribs, fallbacks) := PrepareAttributesForBones (ownAttributes d) mesh d fallbacks in
  let attribs := PrepareAttributesForInstances attribs d in
  let uniforms := AddClipPlaneUniforms ownUniforms in
  let uniforms := PrepareUniforms uniforms d in
  let samplers := PrepareSamplers ownSamplers d in
  let '(uniforms, uniformBuffers, samplers) :=
    PrepareUniformsAndSamplersList (uniforms, ["Material"; "Scene"], samplers) d maxLights in
  {| attributes := attribs;
     uniformsNames := uniforms;
     uniformBuffersNames := uniformBuffers;
     samplers := samplers;
     defines := toString (values d);
     fallbacks := fallbacks;
     indexParameters := maxLights |}.

(** [buildUniformLayout()] *)
Definition buildUniformLayout : list Event :=
  [ AddUniform "vPrimaryColor" 4; AddUniform "vPrimaryColorShadow" 4;
    AddUniform "vDiffuseInfos" 2; AddUniform "vReflectionInfos" 2;
    AddUniform "diffuseMatrix" 16; AddUniform "reflectionMatrix" 16;
    AddUniform "vReflectionMicrosurfaceInfos" 3; AddUniform "fFovMultiplier" 1;
    AddUniform "pointSize" 1; AddUniform "shadowLevel" 1; AddUniform "alpha" 1;
    AddUniform "vBackgroundCenter" 3; AddUniform "vReflectionControl" 4;
    AddUniform "projectedGroundInfos" 2; UniformBufferCreate ].

(** What a call leaves behind: its answer, the material and the sub-mesh
    (with its define set) as the call left them, and the calls it made. *)
Record Outcome : Type := {
  result : bool;
  materialAfter : BackgroundMaterial;
  subMeshAfter : SubMesh;
  issued : list Event
}.

Definition withDefines (d : MaterialDefines) (s : SubMesh) : SubMesh :=
  {| _drawWrapper := _drawWrapper s; materialDefines := Some d;
     hasThinInstances := hasThinInstances s |}.

(** Modelled from the spec: [subMesh.setEffect(effect, defines, ...)] belongs
    to another module; the drawable takes a "borrowed reference to the current
    CompiledVariant" and keeps the define set it was compiled for. *)
Definition setEffect (e : Effect) (d : MaterialDefines) (s : SubMesh) : SubMesh :=
  {| _drawWrapper :=
       {| effect := Some e;
          _wasPreviouslyReady := _wasPreviouslyReady (_drawWrapper s);
          _wasPreviouslyUsingInstances := _wasPreviouslyUsingInstances (_drawWrapper s);
          _forceRebindOnNextCall := _forceRebindOnNextCall (_drawWrapper s) |};
     materialDefines := Some d;
     hasThinInstances := hasThinInstances s |}.

(** The three assignments before [return true]. *)
Definition markReady (scene : Scene) (useInstances : bool) (d : MaterialDefines)
    (s : SubMesh) : SubMesh :=
  {| _drawWrapper :=
       {| effect := effect (_drawWrapper s);
          _wasPreviouslyReady := true;
          _wasPreviouslyUsingInstances := Some useInstances;
          _forceRebindOnNextCall := _forceRebindOnNextCall (_drawWrapper s) |};
     materialDefines := Some (set_renderId (getRenderId scene) d);
     hasThinInstances := hasThinInstances s |}.

(** The frozen fast path at the top of [isReadyForSubMesh]. *)
Definition frozenAndReady (m : BackgroundMaterial) (subMesh : SubMesh)
    (useInstances : bool) : bool :=
  let drawWrapper := _drawWrapper subMesh in
  bool_decide (is_Some (effect drawWrapper)) && isFrozen (inherited m)
  && (_wasPreviouslyReady drawWrapper
      && bool_decide (_wasPreviouslyUsingInstances drawWrapper = Some useInstances)).

(** From "Misc." to the end of [isReadyForSubMesh]: the frame-bound defines,
    the effect, and the final readiness test. *)
Definition finishReadiness (scene : Scene) (mesh : Mesh) (useInstances : bool)
    (m : BackgroundMaterial) (subMesh : SubMesh) (d : MaterialDefines) : Outcome :=
  let p := properties m in
  (* Misc. *)
  let d :=
    PrepareDefinesForMisc mesh scene (_useLogarithmicDepth (inherited m))
      (pointsCloud (inherited m)) (fogEnabled (inherited m))
      (needAlphaTestingForMesh m mesh) d in
  (* Values that need to be evaluated on every frame *)
  let d := PrepareDefinesForFrameBoundValues scene m d useInstances (hasThinInstances subMesh) in
  (* Attribs *)
  let '(attributesChanged, d) := PrepareDefinesForAttributes mesh d in
  let ev1 :=
    if attributesChanged && negb (standardDerivatives (getEngine scene))
       && negb (normalsPresent mesh)
    then [CreateNormals;
          LoggerWarn ("BackgroundMaterial: Normals have been created for the mesh: " ++ meshName mesh)]
    else [] in
  (* Get correct effect *)
  let '(d, subMesh, ev2) :=
    if _isDirty d then
      let d := markAsProcessed d in
      let options := effectCreationOptions m mesh d in
      let e := createEffect "background" options in
      (d, setEffect e d subMesh,
       ([ResetCachedMaterial; CreateEffect "background" options] ++ buildUniformLayout)%list)
    else (d, withDefines d subMesh, []) in
  match effect (_drawWrapper subMesh) with
  | Some e =>
      if effectIsReady e then
        {| result := true; materialAfter := m;
           subMeshAfter := markReady scene useInstances d subMesh;
           issued := (ev1 ++ ev2 ++ [CheckScenePerformancePriority])%list |}
      else
        {| result := false; materialAfter := m; subMeshAfter := subMesh;
           issued := (ev1 ++ ev2)%list |}
  | None =>
      {| result := false; materialAfter := m; subMeshAfter := subMesh;
         issued := (ev1 ++ ev2)%list |}
  end.

(** The define set when the lights partition is reached, if the textures
    partition did not stop the check. *)
Definition refreshTextures (scene : Scene) (flags : MaterialFlags)
    (m : BackgroundMaterial) (d : MaterialDefines)
    : Partition (MaterialDefines * BackgroundMaterial) :=
  if _areTexturesDirty d then texturesPartition scene flags m d else Refreshed (d, m).

Definition refreshLights (m : BackgroundMaterial) (d : MaterialDefines) : MaterialDefines :=
  if _areLightsDirty d then lightsPartition m d else d.

Definition refreshMisc (m : BackgroundMaterial) (d : MaterialDefines) : MaterialDefines :=
  if _areMiscDirty d then miscPartition m d else d.

(** The define set a call works on: the sub-mesh's, or a new one. *)
Definition definesOf (subMesh : SubMesh) : MaterialDefines :=
  match materialDefines subMesh with
  | Some d => d
  | None => newBackgroundMaterialDefines
  end.

(** The define set after the helpers that run ahead of the partitions. *)
Definition lightsAndMultiview (scene : Scene) (mesh : Mesh) (m : BackgroundMaterial)
    (d : MaterialDefines) : MaterialDefines :=
  (* Lights *)
  let d := PrepareDefinesForLights scene mesh d (_maxSimultaneousLights (properties m)) in
  let d := set_needNormals true d in
  (* Multiview *)
  PrepareDefinesForMultiview scene d.

Definition isReadyForSubMesh (scene : Scene) (flags : MaterialFlags) (mesh : Mesh)
    (useInstances : bool) (m : BackgroundMaterial) (subMesh : SubMesh) : Outcome :=
  if frozenAndReady m subMesh useInstances then
    {| result := true; materialAfter := m; subMeshAfter := subMesh; issued := [] |}
  else
    let defines := definesOf subMesh in
    let subMesh := withDefines defines subMesh in
    if _isReadyForSubMesh m scene subMesh then
      {| result := true; materialAfter := m; subMeshAfter := subMesh; issued := [] |}
    else
      let defines := lightsAndMultiview scene mesh m defines in
      (* Textures *)
      match refreshTextures scene flags m defines with
      | NotReady (defines, m) =>
          {| result := false; materialAfter := m;
             subMeshAfter := withDefines defines subMesh; issued := [] |}
      | Refreshed (defines, m) =>
          let defines := refreshLights m defines in
          match imageProcessingPartition scene m defines with
          | NotReady defines =>
              {| result := false; materialAfter := m;
                 subMeshAfter := withDefines defines subMesh; issued := [] |}
          | Refreshed defines =>
              let defines := refreshMisc m defines in
              finishReadiness scene mesh useInstances m subMesh defines
          end
      end.

(** ** [bindForSubMesh] *)

(** The uploads guarded by
    [!useUbo || !isFrozen || !isSync || _forceRebindOnNextCall]. *)
Definition uploadUniforms (scene : Scene) (flags : MaterialFlags)
    (m : BackgroundMaterial) (d : MaterialDefines) : list Event :=
  let p := properties m in
  (* Texture uniforms *)
  (if texturesEnabled scene then
     match _diffuseTexture p, DiffuseTextureEnabled flags with
     | Some t, true =>
         [UpdateFloat2 "vDiffuseInfos" (coordinatesIndex t) (level t);
          Call "BindTextureMatrix"]
     | _, _ => []
     end ++
     match _reflectionTexture p, ReflectionTextureEnabled flags with
     | Some t, true =>
         [UpdateMatrix "reflectionMatrix";
          UpdateFloat2 "vReflectionInfos" (level t) (_reflectionBlur p);
          UpdateFloat3 "vReflectionMicrosurfaceInfos" (sizeWidth t)
            (lodGenerationScale t) (lodGenerationOffset t)]
     | _, _ => []
     end
   else []) ++
  (if js_gt (shadowLevel p) (num 0) then [UpdateFloat "shadowLevel" (shadowLevel p)] else []) ++
  [UpdateFloat "alpha" (alpha (inherited m))] ++
  (* Point size *)
  (if pointsCloud (inherited m) then [UpdateFloat "pointSize" (pointSize (inherited m))] else []) ++
  (if isSet d "USEHIGHLIGHTANDSHADOWCOLORS" then
     [UpdateColor4 "vPrimaryColor" PrimaryHighlightColor (num 1);
      UpdateColor4 "vPrimaryColorShadow" PrimaryShadowColor (num 1)]
   else [UpdateColor4 "vPrimaryColor" PrimaryColor (num 1)]).

(** [a || b] on texture references *)
Definition orTexture (a : option nat) (b : nat) : nat := default b a.

(** The sampler bindings and the uploads next to them, under "Textures". *)
Definition bindTextures (scene : Scene) (flags : MaterialFlags)
    (m : BackgroundMaterial) (d : MaterialDefines) : list Event :=
  let p := properties m in
  if texturesEnabled scene then
    match _diffuseTexture p, DiffuseTextureEnabled flags with
    | Some t, true => [SetTexture "diffuseSampler" (textureId t)]
    | _, _ => []
    end ++
    match _reflectionTexture p, ReflectionTextureEnabled flags with
    | Some t, true =>
        (if isSet d "REFLECTIONBLUR" && isSet d "TEXTURELODSUPPORT" then
           [SetTexture "reflectionSampler" (textureId t)]
         else if negb (isSet d "REFLECTIONBLUR") then
           [SetTexture "reflectionSampler" (textureId t)]
         else
           [SetTexture "reflectionSampler" (orTexture (_lodTextureMid t) (textureId t));
            SetTexture "reflectionSamplerLow" (orTexture (_lodTextureLow t) (textureId t));
            SetTexture "reflectionSamplerHigh" (orTexture (_lodTextureHigh t) (textureId t))]) ++
        (if isSet d "REFLECTIONFRESNEL" then
           [UpdateFloat3 "vBackgroundCenter" (v3x (sceneCenter p)) (v3y (sceneCenter p))
              (v3z (sceneCenter p));
            UpdateFloat4 "vReflectionControl" (v4x (_reflectionControls m))
              (v4y (_reflectionControls m)) (v4z (_reflectionControls m))
              (v4w (_reflectionControls m))]
         else [])
    | _, _ => []
    end ++
    (if isSet d "PROJECTED_GROUND" then
       [UpdateFloat2 "projectedGroundInfos" (projectedGroundRadius p) (projectedGroundHeight p)]
     else [])
  else [].

(** The body of [if (mustRebind)]. *)
Definition rebind (scene : Scene) (flags : MaterialFlags) (m : BackgroundMaterial)
    (subMesh : SubMesh) (d : MaterialDefines) : list Event :=
  [BindToEffect "Material"; Call "bindViewProjection"] ++
  (if negb (useUbo (inherited m)) || negb (isFrozen (inherited m))
      || negb (isSync (inherited m)) || _forceRebindOnNextCall (_drawWrapper subMesh)
   then uploadUniforms scene flags m d else []) ++
  [UpdateFloat "fFovMultiplier" (_fovMultiplier m)] ++
  (* Textures *)
  bindTextures scene flags m d ++
  (* Clip plane *)
  [Call "BindClipPlane"; Call "bindEyePosition"].

(** The body of [if (mustRebind || !this.isFrozen)]. *)
Definition bindFrameValues (scene : Scene) (m : BackgroundMaterial) : list Event :=
  (if lightsEnabled scene then [Call "BindLights"] else []) ++
  [Call "bindView"; Call "BindFogParameters"] ++
  (if _useLogarithmicDepth (inherited m) then [Call "BindLogDepth"] else []) ++
  (if truthy_ref (_imageProcessingConfiguration m) then [Call "imageProcessingConfiguration.bind"]
   else []).

Definition bindForSubMesh (scene : Scene) (flags : MaterialFlags) (mesh : Mesh)
    (m : BackgroundMaterial) (subMesh : SubMesh) : BackgroundMaterial * list Event :=
  match materialDefines subMesh, effect (_drawWrapper subMesh) with
  | Some defines, Some effect =>
      let m := set_activeEffect (Some effect) m in
      let mustRebind := _mustRebind scene effect subMesh (visibility mesh) in
      let '(m, bound) :=
        if mustRebind then (m, rebind scene flags m subMesh defines)
        else if needToAlwaysBindUniformBuffers (getEngine scene) then
          (set_needToBindSceneUbo true m, [BindToEffect "Material"])
        else (m, []) in
      (m,
       (* Matrices, Bones *)
       ([SetMatrix "world"; Call "BindBonesParameters"] ++ bound ++
        (if mustRebind || negb (isFrozen (inherited m)) then bindFrameValues scene m else []) ++
        [Call "_afterBind"; UniformBufferUpdate])%list)
  | _, _ => (m, [])
  end.

End Readiness.

(** ** The vocabulary of the statements *)

(** Decidable equality of events, to look a call up in a trace. *)
#[global] Instance Q_eq_dec : EqDecision Q.
Proof. solve_decision. Defined.

#[global] Instance JSNumber_eq_dec : EqDecision JSNumber.
Proof. solve_decision. Defined.

#[global] Instance EffectFallbacks_eq_dec : EqDecision EffectFallbacks.
Proof. solve_decision. Defined.

#[global] Instance EffectCreationOptions_eq_dec : EqDecision EffectCreationOptions.
Proof. solve_decision. Defined.

#[global] Instance ColorSource_eq_dec : EqDecision ColorSource.
Proof. solve_decision. Defined.

#[global] Instance Event_eq_dec : EqDecision Event.
Proof. solve_decision. Defined.

(** The value the setter is meant to store, case by case. *)
Definition clamped (value : JSNumber) : JSNumber :=
  if isNaN value then num 1
  else if js_lt value (num 0) then num 0
  else if js_gt value (num 2) then num 2
  else value.

(** What holds of the observers of the material [uid] at every point of its
    life: only the configuration in use holds one, and it is the observer the
    material remembers. *)
Definition observerInvariant (uid : nat) (s : BackgroundMaterial * Observables) : Prop :=
  uniqueId (inherited s.1) = uid
  /\ (forall o, _imageProcessingObserver s.1 = Some o -> observerOwner o = uid)
  /\ forall c,
       observersOf uid s.2 c = []
       \/ (_imageProcessingConfiguration s.1 = Obj c
           /\ exists o, _imageProcessingObserver s.1 = Some o
                        /\ observersOf uid s.2 c = [o]).

(** A helper leaves the define [k] alone. *)
Definition keeps (k : string) (f : MaterialDefines -> MaterialDefines) : Prop :=
  forall d, values (f d) !! k = values d !! k.

(** The helpers that run after the lights partition leave [k] alone. *)
Definition laterHelpersKeep `{Collaborators} (k : string) : Prop :=
  (forall c, keeps k (prepareDefines c))
  /\ (forall mesh scene a b c e, keeps k (PrepareDefinesForMisc mesh scene a b c e))
  /\ (forall scene m a b, keeps k (fun d => PrepareDefinesForFrameBoundValues scene m d a b))
  /\ (forall mesh, keeps k (fun d => (PrepareDefinesForAttributes mesh d).2)).

(** The call reaches the lights partition with the define set [d1] and the
    material [m1]: it left neither by a fast path nor because a texture was
    not ready. *)
Definition reachesLights `{Collaborators} (scene : Scene) (flags : MaterialFlags)
    (mesh : Mesh) (useInstances : bool) (m : BackgroundMaterial) (subMesh : SubMesh)
    (d1 : MaterialDefines) (m1 : BackgroundMaterial) : Prop :=
  frozenAndReady m subMesh useInstances = false
  /\ _isReadyForSubMesh m scene (withDefines (definesOf subMesh) subMesh) = false
  /\ refreshTextures scene flags m (lightsAndMultiview scene mesh m (definesOf subMesh))
     = Refreshed (d1, m1).

(** [d0] has the public values and the dirty flags of [d]. *)
Definition sameKeyAndFlags (d d0 : MaterialDefines) : Prop :=
  values d0 = values d
  /\ _isDirty d0 = _isDirty d
  /\ _areTexturesDirty d0 = _areTexturesDirty d
  /\ _areLightsDirty d0 = _areLightsDirty d
  /\ _areImageProcessingDirty d0 = _areImageProcessingDirty d
  /\ _areMiscDirty d0 = _areMiscDirty d.

(** Every partition of [d] is clean and [d] has been processed. *)
Definition clean (d : MaterialDefines) : Prop :=
  _isDirty d = false
  /\ _areTexturesDirty d = false
  /\ _areLightsDirty d = false
  /\ _areImageProcessingDirty d = false
  /\ _areMiscDirty d = false.

(** With the inputs it is given, a helper finds nothing to write into a
    define set that agrees with [d]. *)
Definition findsNothingToWrite (d : MaterialDefines)
    (f : MaterialDefines -> MaterialDefines) : Prop :=
  forall d0, sameKeyAndFlags d d0 -> sameKeyAndFlags d (f d0).

(** The material properties and the scene inputs are those [d] was computed
    from: no helper of the call finds anything to write. *)
Definition inputsUnchanged `{Collaborators} (scene : Scene) (mesh : Mesh)
    (useInstances : bool) (m : BackgroundMaterial) (subMesh : SubMesh)
    (d : MaterialDefines) : Prop :=
  findsNothingToWrite d
    (fun d0 => PrepareDefinesForLights scene mesh d0 (_maxSimultaneousLights (properties m)))
  /\ findsNothingToWrite d (PrepareDefinesForMultiview scene)
  /\ findsNothingToWrite d
       (PrepareDefinesForMisc mesh scene (_useLogarithmicDepth (inherited m))
          (pointsCloud (inherited m)) (fogEnabled (inherited m))
          (needAlphaTestingForMesh m mesh))
  /\ findsNothingToWrite d
       (fun d0 => PrepareDefinesForFrameBoundValues scene m d0 useInstances
                    (hasThinInstances subMesh))
  /\ findsNothingToWrite d (fun d0 => (PrepareDefinesForAttributes mesh d0).2).

(** [texture && enabled && !texture.isReadyOrNotBlocking()] *)
Definition textureBlocks (t : option BaseTexture) (enabled : bool) : bool :=
  match t, enabled with
  | Some t, true => negb (isReadyOrNotBlocking t)
  | _, _ => false
  end.

(** The call goes past the fast paths and a dirty partition's refresh fails
    readiness: the textures partition is dirty and the diffuse or the
    reflection texture is not ready, or the image-processing partition is
    dirty and the configuration is not ready. *)
Definition refreshFails `{Collaborators} (scene : Scene) (flags : MaterialFlags)
    (mesh : Mesh) (useInstances : bool) (m : BackgroundMaterial) (subMesh : SubMesh) : Prop :=
  frozenAndReady m subMesh useInstances = false
  /\ _isReadyForSubMesh m scene (withDefines (definesOf subMesh) subMesh) = false
  /\ let d0 := lightsAndMultiview scene mesh m (definesOf subMesh) in
     (_areTexturesDirty d0 = true /\ texturesEnabled scene = true
      /\ (textureBlocks (_diffuseTexture (properties m)) (DiffuseTextureEnabled flags) = true
          \/ textureBlocks (_reflectionTexture (properties m))
               (ReflectionTextureEnabled flags) = true))
     \/ (exists d1 m1 c,
           refreshTextures scene flags m d0 = Refreshed (d1, m1)
           /\ _areImageProcessingDirty (refreshLights m1 d1) = true
           /\ _imageProcessingConfiguration m = Obj c
           /\ imageProcessingIsReady scene c = false).

(** The options of the compile requests among [events]. *)
Definition compileRequests (events : list Event) : list EffectCreationOptions :=
  omap (fun ev => match ev with
                  | CreateEffect _ options => Some options
                  | _ => None
                  end) events.

(** ** A concrete setting

    The collaborators of a scene with no light, no multiview camera, no clip
    plane, no bones and a ready image-processing configuration: the helpers
    find nothing to write, and the engine answers every request with a linked
    program. *)

Definition newline : string := String (Ascii.ascii_of_nat 10) "".

Definition serializeDefine (kv : string * DefineValue) : string :=
  match kv.2 with
  | VBool true => "#define " ++ kv.1 ++ newline
  | VBool false => ""
  | VNum n => "#define " ++ kv.1 ++ " " ++ pretty n ++ newline
  end.

Definition plainReciprocal (x : JSNumber) : JSNumber :=
  match x with
  | NaN => NaN
  | Num q => if Qeq_bool q 0 then PosInfinity else Num (/ q)
  | _ => num 0
  end.

#[local] Instance plainCollaborators : Collaborators := {|
  toString := fun vs => String.concat "" (map serializeDefine (map_to_list vs));
  reciprocal := plainReciprocal;
  _isReadyForSubMesh := fun _ scene subMesh =>
    match effect (_drawWrapper subMesh), materialDefines subMesh with
    | Some _, Some d => bool_decide (_renderId d = getRenderId scene)
    | _, _ => false
    end;
  needAlphaTestingForMesh := fun _ _ => true;
  PrepareDefinesForLights := fun _ _ d _ => d;
  PrepareDefinesForMultiview := fun _ d => d;
  PrepareDefinesForMergedUV := fun _ d key =>
    d |> set_needUVs true |> setBool key true |> setDefine (key ++ "DIRECTUV") (VNum 0);
  prepareDefines := fun _ d => d;
  PrepareDefinesForMisc := fun _ _ _ _ _ _ d => d;
  PrepareDefinesForFrameBoundValues := fun _ _ d _ _ => d;
  PrepareDefinesForAttributes := fun _ d => (false, d);
  HandleFallbacksForShadows := fun _ fallbacks _ => fallbacks;
  PrepareAttributesForBones := fun attribs _ _ fallbacks => (attribs, fallbacks);
  PrepareAttributesForInstances := fun attribs _ => attribs;
  AddClipPlaneUniforms := fun uniforms => uniforms;
  PrepareUniforms := fun uniforms _ => uniforms;
  PrepareSamplers := fun samplers _ => samplers;
  PrepareUniformsAndSamplersList := fun lists _ _ => lists;
  createEffect := fun _ _ => {| effectId := 1; effectIsReady := true |};
  _mustRebind := fun _ _ subMesh _ => _forceRebindOnNextCall (_drawWrapper subMesh)
|}.

Definition plainEngine : Engine :=
  {| textureLOD := true; standardDerivatives := true;
     needToAlwaysBindUniformBuffers := false |}.

Definition plainScene : Scene :=
  {| getEngine := plainEngine;
     texturesEnabled := true;
     lightsEnabled := true;
     useRightHandedSystem := false;
     getRenderId := 1;
     imageProcessingConfiguration := Obj 0;
     imageProcessingIsReady := fun _ => true |}.

Definition allFlags : MaterialFlags :=
  {| DiffuseTextureEnabled := true; ReflectionTextureEnabled := true |}.

Definition plainMesh : Mesh :=
  {| meshName := "ground"; visibility := num 1; normalsPresent := true |}.

Definition plainSuper : PushMaterial :=
  {| uniqueId := 7; alpha := num 1; alphaMode := 2; isFrozen := false;
     pointsCloud := false; pointSize := num 1; fogEnabled := true;
     _useLogarithmicDepth := false; useUbo := true; isSync := true |}.

Definition frozenSuper : PushMaterial :=
  {| uniqueId := 7; alpha := num 1; alphaMode := 2; isFrozen := true;
     pointsCloud := false; pointSize := num 1; fogEnabled := true;
     _useLogarithmicDepth := false; useUbo := true; isSync := true |}.

Definition noObservers : Observables :=
  {| onUpdateParameters := ∅; nextObserverId := 0 |}.

(** A material as the constructor leaves it in [plainScene]. *)
Definition plainMaterial : BackgroundMaterial :=
  (newBackgroundMaterial plainSuper (Obj 0) noObservers).1.

Definition frozenMaterial : BackgroundMaterial :=
  (newBackgroundMaterial frozenSuper (Obj 0) noObservers).1.

Definition texture (id : nat) (ready : bool) (mode : CoordinatesMode) : BaseTexture :=
  {| textureId := id; isReadyOrNotBlocking := ready; hasAlpha := true;
     gammaSpace := false; isRGBD := false; lodLevelInAlpha := false;
     isCube := false; invertZ := false; isRenderTarget := false;
     coordinatesMode := mode; coordinatesIndex := num 0; level := num 1;
     sizeWidth := num 256; lodGenerationScale := Num (8 # 10);
     lodGenerationOffset := num 0;
     _lodTextureLow := None; _lodTextureMid := None; _lodTextureHigh := None |}.

(** The default properties with a few of them assigned: the two textures,
    the shadow and highlight levels, [useRGBColor] and [shadowOnly]. *)
Definition propertiesWith (diffuse reflection : option BaseTexture)
    (shadow highlight : JSNumber) (rgb only : bool) : BackgroundProperties :=
  {| _primaryColorShadowLevel := shadow;
     _primaryColorHighlightLevel := highlight;
     _reflectionTexture := reflection;
     _reflectionBlur := num 0;
     _diffuseTexture := diffuse;
     shadowLevel := num 0;
     sceneCenter := {| v3x := num 0; v3y := num 0; v3z := num 0 |};
     _opacityFresnel := true;
     reflectionFresnel := false;
     reflectionFalloffDistance := num 0;
     reflectionAmount := num 1;
     reflectionReflectance0 := Num (5 # 100);
     reflectionReflectance90 := Num (5 # 10);
     _useRGBColor := rgb;
     _enableNoise := false;
     useEquirectangularFOV := false;
     _maxSimultaneousLights := 4;
     _shadowOnly := only;
     switchToBGR := false;
     _enableGroundProjection := false;
     projectedGroundRadius := num 1000;
     projectedGroundHeight := num 10 |}.

Definition withProperties (p : BackgroundProperties) (m : BackgroundMaterial)
    : BackgroundMaterial :=
  mkMaterial (inherited m) p (_fovMultiplier m) (_imageProcessingConfiguration m)
    (_imageProcessingObserver m) (_reflectionControls m) (_activeEffect m)
    (_needToBindSceneUbo m).

(** [material.diffuseTexture = ...; material.reflectionTexture = ...] *)
Definition withTextures (diffuse reflection : option BaseTexture)
    (m : BackgroundMaterial) : BackgroundMaterial :=
  withProperties (propertiesWith diffuse reflection (num 0) (num 0) true false) m.

(** A sub-mesh that has not been rendered yet. *)
Definition newSubMesh : SubMesh :=
  {| _drawWrapper :=
       {| effect := None; _wasPreviouslyReady := false;
          _wasPreviouslyUsingInstances := None; _forceRebindOnNextCall := false |};
     materialDefines := None;
     hasThinInstances := false |}.

(** [_markAllSubMeshesAsTexturesDirty()] as it reaches one sub-mesh. *)
Definition markSubMeshAsTexturesDirty (s : SubMesh) : SubMesh :=
  match materialDefines s with
  | Some d => withDefines (markAsTexturesDirty d) s
  | None => s
  end.

(** The scene moves on to the next frame. *)
Definition nextFrame (scene : Scene) : Scene :=
  {| getEngine := getEngine scene;
     texturesEnabled := texturesEnabled scene;
     lightsEnabled := lightsEnabled scene;
     useRightHandedSystem := useRightHandedSystem scene;
     getRenderId := getRenderId scene + 1;
     imageProcessingConfiguration := imageProcessingConfiguration scene;
     imageProcessingIsReady := imageProcessingIsReady scene |}.

(** The draw wrapper is told to rebind on the next call. *)
Definition forceRebind (s : SubMesh) : SubMesh :=
  {| _drawWrapper :=
       {| effect := effect (_drawWrapper s);
          _wasPreviouslyReady := _wasPreviouslyReady (_drawWrapper s);
          _wasPreviouslyUsingInstances := _wasPreviouslyUsingInstances (_drawWrapper s);
          _forceRebindOnNextCall := true |};
     materialDefines := materialDefines s;
     hasThinInstances := hasThinInstances s |}.

(** *** A reflection texture that changes its coordinates mode

    Frame 1 renders with a planar reflection texture; the texture is then
    switched to spherical coordinates, which marks the textures partition
    dirty, and frame 2 renders again. *)
Definition planarMaterial : BackgroundMaterial :=
  withTextures None (Some (texture 2 true PLANAR_MODE)) plainMaterial.

Definition planarFrame : Outcome :=
  isReadyForSubMesh plainScene allFlags plainMesh false planarMaterial newSubMesh.

Definition sphericalMaterial : BackgroundMaterial :=
  withTextures None (Some (texture 2 true SPHERICAL_MODE)) (materialAfter planarFrame).

Definition sphericalFrame : Outcome :=
  isReadyForSubMesh (nextFrame plainScene) allFlags plainMesh false sphericalMaterial
    (markSubMeshAsTexturesDirty (subMeshAfter planarFrame)).

(** *** A reflection texture that is still loading

    Frame 1 renders without textures; a ready diffuse texture and a
    reflection texture that is not ready yet are then assigned, and frame 2
    asks again. *)
Definition bareFrame : Outcome :=
  isReadyForSubMesh plainScene allFlags plainMesh false plainMaterial newSubMesh.

Definition loadingMaterial : BackgroundMaterial :=
  withTextures (Some (texture 1 true PLANAR_MODE)) (Some (texture 2 false CUBIC_MODE))
    (materialAfter bareFrame).

Definition loadingSubMesh : SubMesh := markSubMeshAsTexturesDirty (subMeshAfter bareFrame).

Definition loadingFrame : Outcome :=
  isReadyForSubMesh (nextFrame plainScene) allFlags plainMesh false loadingMaterial
    loadingSubMesh.

(** *** Fog, point size and multiview at once *)
Definition foggyDefines : MaterialDefines :=
  newBackgroundMaterialDefines
  |> setBool "FOG" true |> setBool "POINTSIZE" true |> setBool "MULTIVIEW" true.

Definition foggyFrame : Outcome :=
  isReadyForSubMesh plainScene allFlags plainMesh false plainMaterial
    (withDefines foggyDefines newSubMesh).

(** The order in which each compile request among [events] has its defines
    dropped. *)
Definition requestedDisableOrders (events : list Event) : list (list string) :=
  omap (fun ev => match ev with
                  | CreateEffect _ options => Some (disableOrder (fallbacks options))
                  | _ => None
                  end) events.

(** the compile request of [foggyFrame] *)
Definition foggyRequest : EffectCreationOptions :=
  default (effectCreationOptions plainMaterial plainMesh foggyDefines)
    (head (compileRequests (issued foggyFrame))).

(** *** A frozen, textured material bound twice *)
Definition texturedFrozenMaterial : BackgroundMaterial :=
  withTextures (Some (texture 1 true PLANAR_MODE)) (Some (texture 2 true CUBIC_MODE))
    frozenMaterial.

Definition texturedFrame : Outcome :=
  isReadyForSubMesh plainScene allFlags plainMesh false texturedFrozenMaterial newSubMesh.

(** the first bind of the sub-mesh is a forced one *)
Definition firstBind : BackgroundMaterial * list Event :=
  bindForSubMesh plainScene allFlags plainMesh (materialAfter texturedFrame)
    (forceRebind (subMeshAfter texturedFrame)).

(** the second bind follows with nothing changed and nothing forced *)
Definition secondBind : BackgroundMaterial * list Event :=
  bindForSubMesh plainScene allFlags plainMesh firstBind.1 (subMeshAfter texturedFrame).

(** *** Levels and [shadowOnly] *)
Definition levelledMaterial : BackgroundMaterial :=
  withProperties (propertiesWith None None (Num (1 # 2)) (num 0) false false) plainMaterial.

(** what a partition refresh left, stopped or not *)
Definition partitionValue {A : Type} (p : Partition A) : A :=
  match p with NotReady a | Refreshed a => a end.

Definition levelledTextures : Partition (MaterialDefines * BackgroundMaterial) :=
  refreshTextures plainScene allFlags levelledMaterial
    (lightsAndMultiview plainScene plainMesh levelledMaterial (definesOf newSubMesh)).

Definition shadowOnlyMaterial : BackgroundMaterial :=
  withProperties (propertiesWith None None (num 0) (num 0) true true) plainMaterial.

(** *** A frame-bound define that settles on the second call

    [PrepareDefinesForFrameBoundValues] belongs to another module.  This
    instance follows what that helper does with the depth pre-pass: it
    compares [defines.DEPTHPREPASS], a define that
    [class BackgroundMaterialDefines] does not declare, with
    [!engine.getColorWrite()]; where they differ it negates the define and
    marks the define set unprocessed.  The engine writes colour throughout.  On
    a new define set the define is undefined and becomes true, on the call
    after that it becomes false, and from then on the helper finds nothing to
    write.  [toString] goes over the declared defines only. *)
Definition settlingFrameBoundValues (d : MaterialDefines) : MaterialDefines :=
  match values d !! "DEPTHPREPASS" with
  | Some (VBool false) => d
  | _ =>
      mkDefines (<["DEPTHPREPASS" := VBool (negb (isSet d "DEPTHPREPASS"))]> (values d))
        true (_areTexturesDirty d) (_areLightsDirty d) (_areImageProcessingDirty d)
        (_areMiscDirty d) (_needNormals d) (_needUVs d) (_renderId d)
  end.

Definition declaredKey (vs : gmap string DefineValue) : string :=
  String.concat ""
    (map (fun kv => match vs !! kv.1 with
                    | Some v => serializeDefine (kv.1, v)
                    | None => ""
                    end)
       declaredDefines).

Definition settlingCollaborators : Collaborators := {|
  toString := declaredKey;
  reciprocal := plainReciprocal;
  _isReadyForSubMesh := fun _ scene subMesh =>
    match effect (_drawWrapper subMesh), materialDefines subMesh with
    | Some _, Some d => bool_decide (_renderId d = getRenderId scene)
    | _, _ => false
    end;
  needAlphaTestingForMesh := fun _ _ => true;
  PrepareDefinesForLights := fun _ _ d _ => d;
  PrepareDefinesForMultiview := fun _ d => d;
  PrepareDefinesForMergedUV := fun _ d key =>
    d |> set_needUVs true |> setBool key true |> setDefine (key ++ "DIRECTUV") (VNum 0);
  prepareDefines := fun _ d => d;
  PrepareDefinesForMisc := fun _ _ _ _ _ _ d => d;
  PrepareDefinesForFrameBoundValues := fun _ _ d _ _ => settlingFrameBoundValues d;
  PrepareDefinesForAttributes := fun _ d => (false, d);
  HandleFallbacksForShadows := fun _ fallbacks _ => fallbacks;
  PrepareAttributesForBones := fun attribs _ _ fallbacks => (attribs, fallbacks);
  PrepareAttributesForInstances := fun attribs _ => attribs;
  AddClipPlaneUniforms := fun uniforms => uniforms;
  PrepareUniforms := fun uniforms _ => uniforms;
  PrepareSamplers := fun samplers _ => samplers;
  PrepareUniformsAndSamplersList := fun lists _ _ => lists;
  createEffect := fun _ _ => {| effectId := 1; effectIsReady := true |};
  _mustRebind := fun _ _ subMesh _ => _forceRebindOnNextCall (_drawWrapper subMesh)
|}.

(** Three frames of a material without textures, nothing changed in
    between. *)
Definition settlingFrame1 : Outcome :=
  @isReadyForSubMesh settlingCollaborators plainScene allFlags plainMesh false
    plainMaterial newSubMesh.

Definition settlingFrame2 : Outcome :=
  @isReadyForSubMesh settlingCollaborators (nextFrame plainScene) allFlags plainMesh false
    (materialAfter settlingFrame1) (subMeshAfter settlingFrame1).

Definition settlingFrame3 : Outcome :=
  @isReadyForSubMesh settlingCollaborators (nextFrame (nextFrame plainScene)) allFlags
    plainMesh false (materialAfter settlingFrame2) (subMeshAfter settlingFrame2).

(** ** The render targets, [unbind] and [hasTexture] *)

(** [_renderTargets] is a [SmartArray]: an array whose [reset] sets the length
    back to 0 and whose [push] appends.  [getRenderTargetTextures] is the
    closure the constructor installs; [previous] is what the array held from
    the call before. *)
Definition getRenderTargetTextures (previous : list BaseTexture)
    (m : BackgroundMaterial) : list BaseTexture :=
  let _renderTargets : list BaseTexture := [] in
  let _renderTargets :=
    match _diffuseTexture (properties m) with
    | Some t => if isRenderTarget t then (_renderTargets ++ [t])%list else _renderTargets
    | None => _renderTargets
    end in
  match _reflectionTexture (properties m) with
  | Some t => if isRenderTarget t then (_renderTargets ++ [t])%list else _renderTargets
  | None => _renderTargets
  end.

(** [get hasRenderTargetTextures()] *)
Definition hasRenderTargetTextures (m : BackgroundMaterial) : bool :=
  match _diffuseTexture (properties m) with
  | Some t => isRenderTarget t
  | None => false
  end
  || match _reflectionTexture (properties m) with
     | Some t => isRenderTarget t
     | None => false
     end.

(** The calls [unbind] makes: [setTexture(sampler, null)] on the uniform
    buffer and [super.unbind()]. *)
Inductive UnbindCall : Type :=
| ClearSampler (sampler : string)
| SuperUnbind.

Definition unbind (m : BackgroundMaterial) : list UnbindCall :=
  (match _diffuseTexture (properties m) with
   | Some t => if isRenderTarget t then [ClearSampler "diffuseSampler"] else []
   | None => []
   end ++
   match _reflectionTexture (properties m) with
   | Some t => if isRenderTarget t then [ClearSampler "reflectionSampler"] else []
   | None => []
   end ++ [SuperUnbind])%list.

(** [this._reflectionTexture === texture]: the same object *)
Definition isTexture (t : option BaseTexture) (texture : nat) : bool :=
  match t with
  | Some t => bool_decide (textureId t = texture)
  | None => false
  end.

(** [hasTexture(texture)]; [superHasTexture] is [super.hasTexture]. *)
Definition hasTexture (superHasTexture : nat -> bool) (m : BackgroundMaterial)
    (texture : nat) : bool :=
  if superHasTexture texture then true
  else if isTexture (_reflectionTexture (properties m)) texture then true
  else if isTexture (_diffuseTexture (properties m)) texture then true
  else false.

(** ** The vocabulary of the further statements *)

(** The uniform and the number of floats an upload writes. *)
Definition uploadSlot (e : Event) : option (string * Z) :=
  match e with
  | UpdateFloat name _ => Some (name, 1)
  | UpdateFloat2 name _ _ => Some (name, 2)
  | UpdateFloat3 name _ _ _ => Some (name, 3)
  | UpdateFloat4 name _ _ _ _ => Some (name, 4)
  | UpdateMatrix name => Some (name, 16)
  | UpdateColor4 name _ _ => Some (name, 4)
  | _ => None
  end.

(** The uniforms [buildUniformLayout] declares, with their sizes. *)
Definition declaredUniforms : list (string * Z) :=
  omap (fun e => match e with AddUniform name size => Some (name, size) | _ => None end)
    buildUniformLayout.

(** An upload goes to a uniform of the layout, of the size the upload writes,
    that is also among the uniforms asked of the effect; a sampler binding
    goes to a sampler asked of the effect. *)
Definition wellAddressed (e : Event) : bool :=
  match e with
  | SetTexture sampler _ => bool_decide (sampler ∈ ownSamplers)
  | _ =>
      match uploadSlot e with
      | Some slot => bool_decide (slot ∈ declaredUniforms) && bool_decide (slot.1 ∈ ownUniforms)
      | None => true
      end
  end.

(** The helpers that run ahead of the partitions leave [k] alone. *)
Definition earlyHelpersKeep `{Collaborators} (k : string) : Prop :=
  (forall scene mesh n, keeps k (fun d => PrepareDefinesForLights scene mesh d n))
  /\ (forall scene, keeps k (PrepareDefinesForMultiview scene)).

(** The defines the lights and the misc partition write. *)
Definition lightsAndMiscDefines : list string :=
  [ "USEHIGHLIGHTANDSHADOWCOLORS"; "BACKMAT_SHADOWONLY"; "PROJECTED_GROUND";
    "REFLECTIONMAP_SKYBOX" ].

Definition isResetCachedMaterial (e : Event) : bool :=
  match e with ResetCachedMaterial => true | _ => false end.

Definition isUniformBufferCreate (e : Event) : bool :=
  match e with UniformBufferCreate => true | _ => false end.

(** [reflectionTexture && MaterialFlags.ReflectionTextureEnabled] *)
Definition reflectionInUse (flags : MaterialFlags) (m : BackgroundMaterial) : bool :=
  match _reflectionTexture (properties m), ReflectionTextureEnabled flags with
  | Some _, true => true
  | _, _ => false
  end.

(** The defines the textures partition resets when no reflection texture is
    in use. *)
Definition reflectionDefineNames : list string :=
  [ "REFLECTION"; "REFLECTIONFRESNEL"; "REFLECTIONFALLOFF"; "REFLECTIONBLUR";
    "REFLECTIONMAP_3D"; "REFLECTIONMAP_SPHERICAL"; "REFLECTIONMAP_PLANAR";
    "REFLECTIONMAP_CUBIC"; "REFLECTIONMAP_PROJECTION"; "REFLECTIONMAP_SKYBOX";
    "REFLECTIONMAP_EXPLICIT"; "REFLECTIONMAP_EQUIRECTANGULAR";
    "REFLECTIONMAP_EQUIRECTANGULAR_FIXED"; "REFLECTIONMAP_MIRROREDEQUIRECTANGULAR_FIXED";
    "INVERTCUBICMAP"; "REFLECTIONMAP_OPPOSITEZ"; "LODINREFLECTIONALPHA";
    "GAMMAREFLECTION"; "RGBDREFLECTION" ].

(** The partition was refreshed, not stopped. *)
Definition isRefreshed {A : Type} (p : Partition A) : bool :=
  match p with Refreshed _ => true | NotReady _ => false end.

(** The call reaches the misc partition with the define set [d2] and the
    material [m1]: neither a fast path, nor a texture, nor the image-processing
    configuration stopped it. *)
Definition reachesMisc `{Collaborators} (scene : Scene) (flags : MaterialFlags)
    (mesh : Mesh) (useInstances : bool) (m : BackgroundMaterial) (subMesh : SubMesh)
    (d2 : MaterialDefines) (m1 : BackgroundMaterial) : Prop :=
  exists d1,
    reachesLights scene flags mesh useInstances m subMesh d1 m1
    /\ imageProcessingPartition scene m1 (refreshLights m1 d1) = Refreshed d2.

(** The uniform an upload writes, and the sampler a binding binds. *)
Definition uploadName (e : Event) : option string := fst <$> uploadSlot e.

Definition boundSampler (e : Event) : option string :=
  match e with SetTexture sampler _ => Some sampler | _ => None end.

(** The uniforms in the order in which [bindForSubMesh] comes to them. *)
Definition uploadOrder : list string :=
  [ "vDiffuseInfos"; "reflectionMatrix"; "vReflectionInfos";
    "vReflectionMicrosurfaceInfos"; "shadowLevel"; "alpha"; "pointSize";
    "vPrimaryColor"; "vPrimaryColorShadow"; "fFovMultiplier";
    "vBackgroundCenter"; "vReflectionControl"; "projectedGroundInfos" ].

(** ** Further concrete settings *)

(** Modelled from the spec: [markDirty(partition)] "sets the partition's
    dirty flag"; the define set as a whole becomes dirty with it. *)
Definition markAsLightsDirty (d : MaterialDefines) : MaterialDefines :=
  mkDefines (values d) true (_areTexturesDirty d) true (_areImageProcessingDirty d)
    (_areMiscDirty d) (_needNormals d) (_needUVs d) (_renderId d).

(** [_markAllSubMeshesAsLightsDirty()] as it reaches one sub-mesh. *)
Definition markSubMeshAsLightsDirty (s : SubMesh) : SubMesh :=
  match materialDefines s with
  | Some d => withDefines (markAsLightsDirty d) s
  | None => s
  end.

(** *** The reflection texture taken away

    After [planarFrame] the reflection texture is set to null, which marks
    the textures partition dirty. *)
Definition clearedMaterial : BackgroundMaterial :=
  withTextures None None (materialAfter planarFrame).

(** *** A cube reflection texture projected on the ground *)
Definition cubeTexture (id : nat) : BaseTexture :=
  {| textureId := id; isReadyOrNotBlocking := true; hasAlpha := false;
     gammaSpace := false; isRGBD := false; lodLevelInAlpha := false;
     isCube := true; invertZ := false; isRenderTarget := false;
     coordinatesMode := CUBIC_MODE; coordinatesIndex := num 0; level := num 1;
     sizeWidth := num 256; lodGenerationScale := Num (8 # 10);
     lodGenerationOffset := num 0;
     _lodTextureLow := None; _lodTextureMid := None; _lodTextureHigh := None |}.

Definition projectedProperties : BackgroundProperties :=
  {| _primaryColorShadowLevel := num 0;
     _primaryColorHighlightLevel := num 0;
     _reflectionTexture := Some (cubeTexture 2);
     _reflectionBlur := num 0;
     _diffuseTexture := None;
     shadowLevel := num 0;
     sceneCenter := {| v3x := num 0; v3y := num 0; v3z := num 0 |};
     _opacityFresnel := true;
     reflectionFresnel := false;
     reflectionFalloffDistance := num 0;
     reflectionAmount := num 1;
     reflectionReflectance0 := Num (5 # 100);
     reflectionReflectance90 := Num (5 # 10);
     _useRGBColor := true;
     _enableNoise := false;
     useEquirectangularFOV := false;
     _maxSimultaneousLights := 4;
     _shadowOnly := false;
     switchToBGR := false;
     _enableGroundProjection := true;
     projectedGroundRadius := num 1000;
     projectedGroundHeight := num 10 |}.

Definition projectedMaterial : BackgroundMaterial :=
  withProperties projectedProperties plainMaterial.

Definition projectedTextures : Partition (MaterialDefines * BackgroundMaterial) :=
  refreshTextures plainScene allFlags projectedMaterial
    (lightsAndMultiview plainScene plainMesh projectedMaterial (definesOf newSubMesh)).

Definition projectedLights : Partition MaterialDefines :=
  imageProcessingPartition plainScene (partitionValue projectedTextures).2
    (refreshLights (partitionValue projectedTextures).2 (partitionValue projectedTextures).1).

(** *** Two materials on one configuration

    The scene's configuration already notifies material 8 when material 7 is
    constructed. *)
Definition sharedObservers : Observables :=
  {| onUpdateParameters := {[ 0%nat := [ {| observerId := 0; observerOwner := 8 |} ] ]};
     nextObserverId := 1 |}.

(** * Properties *)

(** ** Numbers *)

Lemma js_lt_Num (x y : Q) : js_lt (Num x) (Num y) = true <-> (x < y)%Q.
Proof.
  simpl. rewrite negb_true_iff. split.
  - intros Hb. apply Qnot_le_lt. intros Hle.
    apply Qle_bool_iff in Hle. congruence.
  - intros Hlt. destruct (Qle_bool y x) eqn:E; [|done].
    apply Qle_bool_iff in E. exfalso. eapply Qlt_not_le; eauto.
Qed.

Lemma js_lt_Num_false (x y : Q) : js_lt (Num x) (Num y) = false <-> (y <= x)%Q.
Proof.
  simpl. rewrite negb_false_iff. apply Qle_bool_iff.
Qed.

(** Turns the comparisons of a goal into facts on rationals. *)
Ltac compare_numbers :=
  repeat match goal with
  | H : js_lt (Num _) (Num _) = true |- _ => apply js_lt_Num in H
  | H : js_lt (Num _) (Num _) = false |- _ => apply js_lt_Num_false in H
  | |- js_lt (Num _) (Num _) = true => apply js_lt_Num
  | |- js_lt (Num _) (Num _) = false => apply js_lt_Num_false
  | |- js_eq (Num _) (Num _) = true => apply Qeq_bool_iff
  end;
  unfold inject_Z in *.

Lemma clamped_in_range (value : JSNumber) : in_range 0 2 (clamped value).
Proof.
  unfold clamped, js_gt, num.
  destruct value as [| |q|]; simpl isNaN; cbv iota;
    try (split; apply Qle_bool_iff; reflexivity).
  destruct (js_lt (Num q) (Num (inject_Z 0))) eqn:E0;
    [split; apply Qle_bool_iff; reflexivity|].
  destruct (js_lt (Num (inject_Z 2)) (Num q)) eqn:E2;
    [split; apply Qle_bool_iff; reflexivity|].
  compare_numbers. simpl. lra.
Qed.

Lemma Math_min_Num (a b : Q) :
  Math_min (Num a) (Num b) = Num (if js_lt (Num b) (Num a) then b else a).
Proof. unfold Math_min. simpl isNaN. cbn [orb]. by destruct (js_lt (Num b) (Num a)). Qed.

Lemma Math_max_Num (a b : Q) :
  Math_max (Num a) (Num b) = Num (if js_lt (Num a) (Num b) then b else a).
Proof. unfold Math_max. simpl isNaN. cbn [orb]. by destruct (js_lt (Num a) (Num b)). Qed.

Lemma set_fovMultiplier_clamped (value : JSNumber) (m : BackgroundMaterial) :
  js_eq (fovMultiplier (set_fovMultiplier value m)) (clamped value) = true.
Proof.
  unfold fovMultiplier, set_fovMultiplier, clamped, js_gt, num; simpl _fovMultiplier.
  destruct value as [| |q|]; try reflexivity.
  simpl isNaN. cbv iota. rewrite Math_min_Num, Math_max_Num.
  destruct (js_lt (Num q) (Num (inject_Z 2))) eqn:E2;
    destruct (js_lt (Num q) (Num (inject_Z 0))) eqn:E0;
    destruct (js_lt (Num (inject_Z 2)) (Num q)) eqn:E2';
    match goal with
    | |- context [js_lt (Num ?a) (Num ?b)] => destruct (js_lt (Num a) (Num b)) eqn:E
    end;
    compare_numbers; lra.
Qed.

Lemma set_fovMultiplier_in_range (value : JSNumber) (m : BackgroundMaterial) :
  in_range 0 2 (fovMultiplier (set_fovMultiplier value m)).
Proof.
  pose proof (set_fovMultiplier_clamped value m) as He.
  pose proof (clamped_in_range value) as Hr.
  destruct (fovMultiplier (set_fovMultiplier value m)) as [| |x|],
    (clamped value) as [| |y|]; simpl in *; try done.
  apply Qeq_bool_iff in He. lra.
Qed.

(** ** [fovMultiplier] *)

(** The getter answers with a number of [0, 2] at every point of a material's
    life: after the constructor and after any assignments. *)
Lemma fovMultiplier_always_in_range (super : PushMaterial) (assigned : list JSNumber) :
  in_range 0 2
    (fovMultiplier (foldl (fun m v => set_fovMultiplier v m) (initialMaterial super) assigned)).
Proof.
  induction assigned as [|v vs IH] using rev_ind.
  - simpl. split; apply Qle_bool_iff; reflexivity.
  - rewrite foldl_app. cbn [foldl]. apply set_fovMultiplier_in_range.
Qed.

(** C9: an assignment to [fovMultiplier] stores 1.0 for NaN and otherwise the
    value clamped to the range 0.0 - 2.0 (0 below the range, 2 above it, the
    value itself inside, compared as JavaScript compares numbers), so the
    getter answers with a number of that range and never with NaN. *)
Theorem fovMultiplier_set_corrects_input (value : JSNumber) (m : BackgroundMaterial) :
  let stored := fovMultiplier (set_fovMultiplier value m) in
  (if isNaN value then stored = num 1 else js_eq stored (clamped value) = true)
  /\ isNaN stored = false
  /\ in_range 0 2 stored.
Proof.
  intros stored. split; [|split].
  - destruct (isNaN value) eqn:E.
    + destruct value; try discriminate. reflexivity.
    + apply set_fovMultiplier_clamped.
  - pose proof (set_fovMultiplier_in_range value m) as Hr. fold stored in Hr.
    by destruct stored.
  - apply set_fovMultiplier_in_range.
Qed.

(** ** [needAlphaBlending] *)

(** C10: [needAlphaBlending] answers true exactly when the alpha is below 1,
    or a diffuse texture is set and has alpha, or [shadowOnly] is on; an
    opaque material with [shadowOnly] on therefore needs alpha blending. *)
Theorem needAlphaBlending_iff (m : BackgroundMaterial) :
  (needAlphaBlending m = true <->
     js_lt (alpha (inherited m)) (num 1) = true
     \/ (exists t, _diffuseTexture (properties m) = Some t /\ hasAlpha t = true)
     \/ _shadowOnly (properties m) = true)
  /\ (_shadowOnly (properties m) = true -> needAlphaBlending m = true).
Proof.
  unfold needAlphaBlending. split.
  - rewrite !orb_true_iff. split.
    + intros [[Ha | Ht] | Hs]; [by left | right; left | by right; right].
      destruct (_diffuseTexture (properties m)) as [t|]; [eauto | done].
    + intros [Ha | [(t & Ht & Hal) | Hs]]; [by left; left | left; right | by right].
      by rewrite Ht.
  - intros ->. apply orb_true_r.
Qed.

(** ** The frozen fast path *)

(** C3: for a frozen material, a draw wrapper that holds an effect, was
    marked ready and was last used with the same [useInstances],
    [isReadyForSubMesh] answers true at once: the material, the sub-mesh and
    its define set are as before the call, and no call is made on the engine
    or on any other collaborator. *)
Theorem isReadyForSubMesh_frozen_fast_path `{Collaborators}
    (scene : Scene) (flags : MaterialFlags) (mesh : Mesh) (useInstances : bool)
    (m : BackgroundMaterial) (subMesh : SubMesh) (e : Effect) :
  isFrozen (inherited m) = true ->
  effect (_drawWrapper subMesh) = Some e ->
  _wasPreviouslyReady (_drawWrapper subMesh) = true ->
  _wasPreviouslyUsingInstances (_drawWrapper subMesh) = Some useInstances ->
  isReadyForSubMesh scene flags mesh useInstances m subMesh
  = {| result := true; materialAfter := m; subMeshAfter := subMesh; issued := [] |}.
Proof.
  intros Hfrozen Heffect Hready Hinstances.
  unfold isReadyForSubMesh, frozenAndReady.
  rewrite Hfrozen, Heffect, Hready, Hinstances.
  rewrite !bool_decide_eq_true_2; [reflexivity | done | by eexists].
Qed.

(** ** The image-processing observer *)

Lemma filter_removeFirst (uid : nat) (o : Observer) (l : list Observer) :
  observerOwner o = uid ->
  filter (fun x => observerOwner x = uid) (removeFirst o l)
  = removeFirst o (filter (fun x => observerOwner x = uid) l).
Proof.
  intros Ho. induction l as [|x l IH]; [done|].
  simpl. destruct (decide (x = o)) as [->|Hne].
  - rewrite filter_cons_True by done. simpl. by rewrite decide_True.
  - destruct (decide (observerOwner x = uid)) as [Hx|Hx].
    + rewrite !filter_cons_True by done. simpl. rewrite decide_False by done.
      by rewrite IH.
    + by rewrite !filter_cons_False by done.
Qed.

Lemma observersOf_remove (uid c c' : nat) (o : Observer) (w : Observables) :
  observerOwner o = uid ->
  observersOf uid (observable_remove c o w) c'
  = if decide (c' = c) then removeFirst o (observersOf uid w c) else observersOf uid w c'.
Proof.
  intros Ho. unfold observersOf, observable_remove. simpl.
  destruct (decide (c' = c)) as [->|Hne].
  - rewrite lookup_total_insert_eq. by apply filter_removeFirst.
  - by rewrite lookup_total_insert_ne.
Qed.

Lemma observersOf_add (uid c c' : nat) (w : Observables) :
  observersOf uid (observable_add c uid w).2 c'
  = if decide (c' = c)
    then (observersOf uid w c ++ [(observable_add c uid w).1])%list
    else observersOf uid w c'.
Proof.
  unfold observersOf, observable_add. simpl.
  destruct (decide (c' = c)) as [->|Hne].
  - rewrite lookup_total_insert_eq, filter_app.
    by rewrite (filter_cons_True _ _ []) by done.
  - by rewrite lookup_total_insert_ne.
Qed.

(** Once the observer is detached, no configuration notifies the material. *)
Lemma detach_clears (uid : nat) (m : BackgroundMaterial) (w : Observables) :
  observerInvariant uid (m, w) ->
  forall c,
    observersOf uid
      match _imageProcessingConfiguration m, _imageProcessingObserver m with
      | Obj c0, Some o => observable_remove c0 o w
      | _, _ => w
      end c = [].
Proof.
  intros (Huid & Hown & Hinv) c. simpl in *.
  destruct (_imageProcessingConfiguration m) as [| |c0] eqn:Hc;
    try (destruct (Hinv c) as [?|(? & _)]; [done | discriminate]).
  destruct (_imageProcessingObserver m) as [o|] eqn:Ho;
    [|destruct (Hinv c) as [?|(_ & ? & ? & _)]; [done | discriminate]].
  rewrite observersOf_remove by auto.
  destruct (decide (c = c0)) as [->|Hne].
  - destruct (Hinv c0) as [->|(_ & o' & Ho' & ->)]; [done|].
    injection Ho' as <-. simpl. by rewrite decide_True.
  - destruct (Hinv c) as [?|(? & _)]; [done | congruence].
Qed.

Lemma attach_preserves (uid : nat) (sceneConfiguration configuration : JSRef)
    (s : BackgroundMaterial * Observables) :
  observerInvariant uid s ->
  observerInvariant uid (_attachImageProcessingConfiguration sceneConfiguration configuration s).
Proof.
  destruct s as [m w]. intros Hinv.
  pose proof (detach_clears uid m w Hinv) as Hclear.
  destruct Hinv as (Huid & Hown & Hinv). simpl in Huid, Hown.
  unfold _attachImageProcessingConfiguration.
  destruct (ref_eq configuration (_imageProcessingConfiguration m)); [by repeat split|].
  set (w1 := match _imageProcessingConfiguration m, _imageProcessingObserver m with
             | Obj c0, Some o => observable_remove c0 o w
             | _, _ => w
             end) in *.
  set (picked := if negb (truthy_ref configuration) then sceneConfiguration else configuration).
  destruct picked as [| |c] eqn:Hp.
  1, 2: by (repeat split; simpl; [done | auto | intros c; left; apply Hclear]).
  destruct (observable_add c (uniqueId (inherited m)) w1) as [o w2] eqn:Hadd.
  assert (o = (observable_add c uid w1).1 /\ w2 = (observable_add c uid w1).2) as [Eo Ew].
  { rewrite <- Huid, Hadd. done. }
  repeat split; simpl; [done | |].
  - intros o' [= <-]. by rewrite Eo.
  - intros c'. rewrite Ew, observersOf_add.
    destruct (decide (c' = c)) as [->|Hne]; [right | left; apply Hclear].
    split; [done|]. exists o. split; [done|]. by rewrite Hclear, Eo.
Qed.

Lemma dispose_preserves (uid : nat) (s : BackgroundMaterial * Observables) :
  observerInvariant uid s -> observerInvariant uid (dispose s).
Proof.
  destruct s as [m w]. intros Hinv.
  pose proof (detach_clears uid m w Hinv) as Hclear.
  unfold dispose.
  destruct (_imageProcessingConfiguration m) as [| |c0]; try exact Hinv.
  destruct (_imageProcessingObserver m) as [o|] eqn:Ho; [|exact Hinv].
  destruct Hinv as (Huid & Hown & _). simpl in Huid, Hown.
  repeat split; simpl; [done | auto | intros c; left; apply Hclear].
Qed.

Lemma reachable_invariant (uid : nat) (s : BackgroundMaterial * Observables) :
  Reachable uid s -> observerInvariant uid s.
Proof.
  induction 1 as [super sc w Huid Hnone | sc cfg s _ IH | sc v s defs _ IH | s _ IH].
  - apply attach_preserves. repeat split; simpl; [done | done | by left].
  - by apply attach_preserves.
  - simpl. by apply attach_preserves.
  - by apply dispose_preserves.
Qed.

(** C8: at every point of a material's life (construction, then any
    attachments, assignments to [imageProcessingConfiguration] and [dispose]),
    only the configuration in use holds an observer of the material, and it
    holds at most one, so no configuration notifies the material twice;
    attaching the configuration already in use changes nothing. *)
Theorem attach_keeps_one_observer (uid : nat) (s : BackgroundMaterial * Observables) :
  Reachable uid s ->
  (forall c, observersOf uid s.2 c <> [] -> _imageProcessingConfiguration s.1 = Obj c)
  /\ (forall c, (length (observersOf uid s.2 c) <= 1)%nat)
  /\ (forall sceneConfiguration,
        _attachImageProcessingConfiguration sceneConfiguration
          (_imageProcessingConfiguration s.1) s = s).
Proof.
  intros Hreach. apply reachable_invariant in Hreach as (_ & _ & Hinv).
  split; [|split].
  - intros c Hne. by destruct (Hinv c) as [?|(? & _)].
  - intros c. destruct (Hinv c) as [->|(_ & o & _ & ->)]; simpl; lia.
  - intros sc. destruct s as [m w]. unfold _attachImageProcessingConfiguration, ref_eq.
    simpl. by rewrite bool_decide_eq_true_2.
Qed.

(** ** Reading and writing defines *)

Lemma isSet_ext (d d' : MaterialDefines) (k : string) :
  values d' !! k = values d !! k -> isSet d' k = isSet d k.
Proof. unfold isSet. by intros ->. Qed.

Lemma isSet_setBool (d : MaterialDefines) (k : string) (b : bool) :
  isSet (setBool k b d) k = b.
Proof. unfold isSet, setBool, setDefine. simpl. by rewrite lookup_insert_eq. Qed.

Lemma values_setDefine_ne (d : MaterialDefines) (k k' : string) (v : DefineValue) :
  k <> k' -> values (setDefine k v d) !! k' = values d !! k'.
Proof. intros Hne. unfold setDefine. simpl. by rewrite lookup_insert_ne. Qed.

Lemma values_setBool_ne (d : MaterialDefines) (k k' : string) (b : bool) :
  k <> k' -> values (setBool k b d) !! k' = values d !! k'.
Proof. apply values_setDefine_ne. Qed.

Lemma isSet_setBool_ne (d : MaterialDefines) (k k' : string) (b : bool) :
  k <> k' -> isSet (setBool k b d) k' = isSet d k'.
Proof. intros Hne. by apply isSet_ext, values_setBool_ne. Qed.

Section ReadinessFacts.
Context `{Collaborators}.

(** The define set [finishReadiness] leaves on the sub-mesh holds the values
    the frame-bound helpers computed. *)
Lemma finishReadiness_defines (scene : Scene) (mesh : Mesh) (useInstances : bool)
    (m : BackgroundMaterial) (subMesh : SubMesh) (d : MaterialDefines) :
  let o := finishReadiness scene mesh useInstances m subMesh d in
  values (definesOf (subMeshAfter o))
  = values
      (PrepareDefinesForAttributes mesh
         (PrepareDefinesForFrameBoundValues scene m
            (PrepareDefinesForMisc mesh scene (_useLogarithmicDepth (inherited m))
               (pointsCloud (inherited m)) (fogEnabled (inherited m))
               (needAlphaTestingForMesh m mesh) d)
            useInstances (hasThinInstances subMesh))).2.
Proof.
  unfold finishReadiness.
  destruct (PrepareDefinesForAttributes _ _) as [changed d2]. simpl.
  destruct (_isDirty d2); simpl.
  - destruct (effectIsReady _); reflexivity.
  - destruct (effect (_drawWrapper subMesh)) as [e|]; [|reflexivity].
    destruct (effectIsReady e); reflexivity.
Qed.

Lemma finishReadiness_keeps (k : string) (scene : Scene) (mesh : Mesh)
    (useInstances : bool) (m : BackgroundMaterial) (subMesh : SubMesh)
    (d : MaterialDefines) :
  laterHelpersKeep k ->
  values (definesOf (subMeshAfter (finishReadiness scene mesh useInstances m subMesh d))) !! k
  = values d !! k.
Proof.
  intros (_ & Hmisc & Hframe & Hattr).
  rewrite finishReadiness_defines.
  rewrite (Hattr mesh), (Hframe scene m), (Hmisc mesh scene). done.
Qed.

Lemma refreshMisc_keeps (k : string) (m : BackgroundMaterial) (d : MaterialDefines) :
  k <> "PROJECTED_GROUND" -> k <> "REFLECTIONMAP_SKYBOX" ->
  values (refreshMisc m d) !! k = values d !! k.
Proof.
  intros H1 H2. unfold refreshMisc, miscPartition.
  destruct (_areMiscDirty d); [|done].
  destruct (_ && _); rewrite ?values_setBool_ne by done; done.
Qed.

(** What is on the sub-mesh after the lights partition ran on [d]. *)
Lemma afterLights_keeps (k : string) (scene : Scene) (mesh : Mesh)
    (useInstances : bool) (m : BackgroundMaterial) (subMesh : SubMesh)
    (d : MaterialDefines) :
  laterHelpersKeep k ->
  k <> "PROJECTED_GROUND" -> k <> "REFLECTIONMAP_SKYBOX" ->
  values
    (definesOf
       (subMeshAfter
          match imageProcessingPartition scene m d with
          | NotReady defines =>
              {| result := false; materialAfter := m;
                 subMeshAfter := withDefines defines subMesh; issued := [] |}
          | Refreshed defines =>
              finishReadiness scene mesh useInstances m subMesh (refreshMisc m defines)
          end)) !! k
  = values d !! k.
Proof.
  intros Hkeep H1 H2. pose proof Hkeep as (Hip & _).
  unfold imageProcessingPartition.
  destruct (_areImageProcessingDirty d), (_imageProcessingConfiguration m) as [| |c];
    try (rewrite finishReadiness_keeps, refreshMisc_keeps by done; done).
  destruct (negb _); [done|].
  rewrite finishReadiness_keeps, refreshMisc_keeps by done. apply Hip.
Qed.

(** The textures partition reads the properties and writes none. *)
Lemma refreshTextures_properties (scene : Scene) (flags : MaterialFlags)
    (m m1 : BackgroundMaterial) (d d1 : MaterialDefines) :
  refreshTextures scene flags m d = Refreshed (d1, m1) ->
  properties m1 = properties m.
Proof.
  unfold refreshTextures, texturesPartition, reflectionDefines.
  destruct (_areTexturesDirty d); [|by intros [= _ <-]].
  destruct (texturesEnabled scene); [|by intros [= _ <-]].
  destruct (diffuseDefines _ _ _) as [?|d2]; [done|].
  destruct (_reflectionTexture (properties m)) as [t|],
    (ReflectionTextureEnabled flags); try by intros [= _ <-].
  destruct (negb _); [done|].
  destruct (reflectionFresnel (properties m)); by intros [= _ <-].
Qed.

End ReadinessFacts.

(** ** The lights partition *)

(** C7: after a call that recomputes the lights partition,
    USEHIGHLIGHTANDSHADOWCOLORS is false when both levels are 0 and true when
    one of them is not 0 while [useRGBColor] is false.  The helpers that run
    later in the call are taken not to write this define. *)
Theorem lights_partition_highlight_and_shadow `{Collaborators}
    (scene : Scene) (flags : MaterialFlags) (mesh : Mesh) (useInstances : bool)
    (m : BackgroundMaterial) (subMesh : SubMesh)
    (d1 : MaterialDefines) (m1 : BackgroundMaterial) :
  laterHelpersKeep "USEHIGHLIGHTANDSHADOWCOLORS" ->
  reachesLights scene flags mesh useInstances m subMesh d1 m1 ->
  _areLightsDirty d1 = true ->
  let after :=
    definesOf (subMeshAfter (isReadyForSubMesh scene flags mesh useInstances m subMesh)) in
  let shadow := _primaryColorShadowLevel (properties m) in
  let highlight := _primaryColorHighlightLevel (properties m) in
  (js_eq shadow (num 0) = true -> js_eq highlight (num 0) = true ->
   isSet after "USEHIGHLIGHTANDSHADOWCOLORS" = false)
  /\ (_useRGBColor (properties m) = false ->
      js_neq shadow (num 0) = true \/ js_neq highlight (num 0) = true ->
      isSet after "USEHIGHLIGHTANDSHADOWCOLORS" = true).
Proof.
  intros Hkeep (Hfrozen & Hfast & Htex) Hdirty after shadow highlight.
  assert (isSet after "USEHIGHLIGHTANDSHADOWCOLORS"
          = negb (_useRGBColor (properties m))
            && (js_neq shadow (num 0) || js_neq highlight (num 0))) as ->.
  { subst after. unfold isReadyForSubMesh.
    rewrite Hfrozen, Hfast, Htex.
    erewrite isSet_ext; [|by apply afterLights_keeps].
    unfold refreshLights. rewrite Hdirty. unfold lightsPartition.
    rewrite isSet_setBool_ne by done. rewrite isSet_setBool.
    by rewrite (refreshTextures_properties _ _ _ _ _ _ Htex). }
  unfold js_neq. split.
  - intros -> ->. simpl. apply andb_false_r.
  - intros -> [Hs|Hh]; simpl.
    + by rewrite Hs.
    + rewrite Hh. apply orb_true_r.
Qed.

(** ** Clean define sets *)

Section CleanFacts.
Context `{Collaborators}.

Lemma finishReadiness_no_compile (scene : Scene) (mesh : Mesh) (useInstances : bool)
    (m : BackgroundMaterial) (subMesh : SubMesh) (d : MaterialDefines) :
  _isDirty
    (PrepareDefinesForAttributes mesh
       (PrepareDefinesForFrameBoundValues scene m
          (PrepareDefinesForMisc mesh scene (_useLogarithmicDepth (inherited m))
             (pointsCloud (inherited m)) (fogEnabled (inherited m))
             (needAlphaTestingForMesh m mesh) d)
          useInstances (hasThinInstances subMesh))).2 = false ->
  List.filter isCreateEffect
    (issued (finishReadiness scene mesh useInstances m subMesh d)) = [].
Proof.
  unfold finishReadiness.
  destruct (PrepareDefinesForAttributes _ _) as [changed d2]. simpl. intros ->.
  destruct (changed && _ && _); simpl;
    destruct (effect (_drawWrapper subMesh)) as [e|]; try destruct (effectIsReady e);
    reflexivity.
Qed.

Lemma lightsAndMultiview_idle (scene : Scene) (mesh : Mesh) (useInstances : bool)
    (m : BackgroundMaterial) (subMesh : SubMesh) (d : MaterialDefines) :
  inputsUnchanged scene mesh useInstances m subMesh d ->
  sameKeyAndFlags d (lightsAndMultiview scene mesh m d).
Proof.
  intros (Hlights & Hmulti & _). unfold lightsAndMultiview.
  apply Hmulti.
  assert (sameKeyAndFlags d d) as Hrefl by by repeat split.
  destruct (Hlights d Hrefl) as (? & ? & ? & ? & ? & ?).
  by repeat split.
Qed.

End CleanFacts.


(** ** A refresh that fails readiness *)

Section FailureFacts.
Context `{Collaborators}.

Lemma diffuseDefines_blocked (flags : MaterialFlags) (m : BackgroundMaterial)
    (d : MaterialDefines) :
  textureBlocks (_diffuseTexture (properties m)) (DiffuseTextureEnabled flags) = true ->
  diffuseDefines flags m d = NotReady d.
Proof.
  unfold textureBlocks, diffuseDefines.
  destruct (_diffuseTexture (properties m)) as [t|], (DiffuseTextureEnabled flags);
    try done.
  by intros ->.
Qed.

Lemma reflectionDefines_blocked (scene : Scene) (flags : MaterialFlags)
    (m : BackgroundMaterial) (d : MaterialDefines) :
  textureBlocks (_reflectionTexture (properties m)) (ReflectionTextureEnabled flags) = true ->
  reflectionDefines scene flags m d = NotReady (d, m).
Proof.
  unfold textureBlocks, reflectionDefines.
  destruct (_reflectionTexture (properties m)) as [t|], (ReflectionTextureEnabled flags);
    try done.
  by intros ->.
Qed.

Lemma refreshTextures_configuration (scene : Scene) (flags : MaterialFlags)
    (m m1 : BackgroundMaterial) (d d1 : MaterialDefines) :
  refreshTextures scene flags m d = Refreshed (d1, m1) ->
  _imageProcessingConfiguration m1 = _imageProcessingConfiguration m.
Proof.
  unfold refreshTextures, texturesPartition, reflectionDefines.
  destruct (_areTexturesDirty d); [|by intros [= _ <-]].
  destruct (texturesEnabled scene); [|by intros [= _ <-]].
  destruct (diffuseDefines _ _ _) as [?|d2]; [done|].
  destruct (_reflectionTexture (properties m)) as [t|],
    (ReflectionTextureEnabled flags); try by intros [= _ <-].
  destruct (negb _); [done|].
  destruct (reflectionFresnel (properties m)); by intros [= _ <-].
Qed.

End FailureFacts.

(** C2, as the code has it: when a dirty partition's refresh fails readiness
    the call answers false for this frame, makes no call on the engine (no
    compile request) and leaves the draw wrapper as it was.  The define values
    written before the failing check stay written. *)
Theorem isReadyForSubMesh_failed_refresh `{Collaborators}
    (scene : Scene) (flags : MaterialFlags) (mesh : Mesh) (useInstances : bool)
    (m : BackgroundMaterial) (subMesh : SubMesh) :
  refreshFails scene flags mesh useInstances m subMesh ->
  let o := isReadyForSubMesh scene flags mesh useInstances m subMesh in
  result o = false
  /\ issued o = []
  /\ _drawWrapper (subMeshAfter o) = _drawWrapper subMesh.
Proof.
  intros (Hfrozen & Hfast & Hfail) o. subst o.
  unfold isReadyForSubMesh. rewrite Hfrozen, Hfast.
  destruct Hfail as [(Hdirty & Henabled & Hblock) | (d1 & m1 & c & Htex & Hip & Hc & Hready)].
  - unfold refreshTextures, texturesPartition. rewrite Hdirty, Henabled.
    destruct (textureBlocks (_diffuseTexture (properties m)) (DiffuseTextureEnabled flags))
      eqn:Hdiffuse.
    + by rewrite diffuseDefines_blocked.
    + destruct Hblock as [?|Hreflection]; [done|].
      destruct (diffuseDefines _ _ _); [done|].
      by rewrite reflectionDefines_blocked.
  - rewrite Htex. unfold imageProcessingPartition.
    rewrite Hip, (refreshTextures_configuration _ _ _ _ _ _ Htex), Hc, Hready. done.
Qed.

(** ** The compile request *)

Section CompileFacts.
Context `{Collaborators}.

Lemma finishReadiness_compile_request (scene : Scene) (mesh : Mesh) (useInstances : bool)
    (m : BackgroundMaterial) (subMesh : SubMesh) (d : MaterialDefines)
    (name : string) (options : EffectCreationOptions) :
  CreateEffect name options ∈ issued (finishReadiness scene mesh useInstances m subMesh d) ->
  exists d', options = effectCreationOptions m mesh d'.
Proof.
  unfold finishReadiness.
  destruct (PrepareDefinesForAttributes _ _) as [changed d2].
  set (ev1 := if changed && _ && _ then _ else _).
  assert (CreateEffect name options ∉ ev1) as Hev1.
  { subst ev1. destruct (changed && _ && _); set_solver. }
  destruct (_isDirty d2); simpl.
  - destruct (effectIsReady _); simpl; intros Hin;
      exists (markAsProcessed d2); unfold buildUniformLayout in Hin;
      set_solver.
  - destruct (effect (_drawWrapper subMesh)) as [e|]; [destruct (effectIsReady e)|];
      simpl; set_solver.
Qed.

Lemma isReadyForSubMesh_compile_request (scene : Scene) (flags : MaterialFlags)
    (mesh : Mesh) (useInstances : bool) (m : BackgroundMaterial) (subMesh : SubMesh)
    (name : string) (options : EffectCreationOptions) :
  CreateEffect name options
    ∈ issued (isReadyForSubMesh scene flags mesh useInstances m subMesh) ->
  exists d' m', properties m' = properties m
                /\ options = effectCreationOptions m' mesh d'.
Proof.
  unfold isReadyForSubMesh.
  destruct (frozenAndReady _ _ _); [set_solver|].
  destruct (_isReadyForSubMesh _ _ _); [set_solver|].
  destruct (refreshTextures _ _ _ _) as [[d1 m1]|[d1 m1]] eqn:Htex; [set_solver|].
  destruct (imageProcessingPartition _ _ _); [set_solver|].
  intros (d' & ->)%finishReadiness_compile_request.
  exists d', m1. split; [|done]. by eapply refreshTextures_properties.
Qed.

Lemma ownFallbacks_entries (d : MaterialDefines) :
  fallbackDefines (ownFallbacks d)
  = ((if isSet d "FOG" then [(0, "FOG")] else [])
     ++ (if isSet d "POINTSIZE" then [(1, "POINTSIZE")] else [])
     ++ (if isSet d "MULTIVIEW" then [(0, "MULTIVIEW")] else []))%list.
Proof.
  unfold ownFallbacks.
  by destruct (isSet d "FOG"), (isSet d "POINTSIZE"), (isSet d "MULTIVIEW").
Qed.

Lemma ownFallbacks_disableOrder (d : MaterialDefines) :
  disableOrder (ownFallbacks d)
  = ((if isSet d "FOG" then ["FOG"] else [])
     ++ (if isSet d "MULTIVIEW" then ["MULTIVIEW"] else [])
     ++ (if isSet d "POINTSIZE" then ["POINTSIZE"] else []))%list.
Proof.
  unfold disableOrder. rewrite ownFallbacks_entries.
  by destruct (isSet d "FOG"), (isSet d "POINTSIZE"), (isSet d "MULTIVIEW").
Qed.

End CompileFacts.

(** C4, as the code has it: every compile request that [isReadyForSubMesh]
    builds, for the define set [d] it serializes, registers FOG under rank 0,
    POINTSIZE under rank 1 and MULTIVIEW under rank 0, in this order, before
    the shadow and bone helpers add their fallbacks; with the lower rank
    dropped first, fog and multiview go before point size. *)
Theorem compile_request_fallbacks `{Collaborators}
    (scene : Scene) (flags : MaterialFlags) (mesh : Mesh) (useInstances : bool)
    (m : BackgroundMaterial) (subMesh : SubMesh)
    (name : string) (options : EffectCreationOptions) :
  CreateEffect name options
    ∈ issued (isReadyForSubMesh scene flags mesh useInstances m subMesh) ->
  exists d : MaterialDefines,
    defines options = toString (values d)
    /\ fallbacks options
       = (PrepareAttributesForBones (ownAttributes d) mesh d
            (HandleFallbacksForShadows d (ownFallbacks d)
               (_maxSimultaneousLights (properties m)))).2
    /\ fallbackDefines (ownFallbacks d)
       = ((if isSet d "FOG" then [(0, "FOG")] else [])
          ++ (if isSet d "POINTSIZE" then [(1, "POINTSIZE")] else [])
          ++ (if isSet d "MULTIVIEW" then [(0, "MULTIVIEW")] else []))%list
    /\ disableOrder (ownFallbacks d)
       = ((if isSet d "FOG" then ["FOG"] else [])
          ++ (if isSet d "MULTIVIEW" then ["MULTIVIEW"] else [])
          ++ (if isSet d "POINTSIZE" then ["POINTSIZE"] else []))%list.
Proof.
  intros (d & m' & Hp & ->)%isReadyForSubMesh_compile_request.
  exists d. split; [|split; [|split]].
  - unfold effectCreationOptions.
    destruct (PrepareAttributesForBones _ _ _ _) as [attribs fb].
    destruct (PrepareUniformsAndSamplersList _ _ _) as [[u b] s]. reflexivity.
  - unfold effectCreationOptions. rewrite Hp.
    destruct (PrepareAttributesForBones _ _ _ _) as [attribs fb].
    destruct (PrepareUniformsAndSamplersList _ _ _) as [[u b] s]. reflexivity.
  - apply ownFallbacks_entries.
  - apply ownFallbacks_disableOrder.
Qed.

(** ** Binding *)

(** C5, as the code has it: for a frozen material whose sub-mesh has a define
    set and an effect, a bind that need not rebind uploads no uniform and
    binds no sampler; a bind that must rebind binds the diffuse and the
    reflection sampler of the enabled textures and, when the uniform buffer
    object is in sync and no rebind is forced, uploads only [fFovMultiplier]
    and the uniforms set next to the samplers. *)
Theorem bindForSubMesh_frozen `{Collaborators}
    (scene : Scene) (flags : MaterialFlags) (mesh : Mesh)
    (m : BackgroundMaterial) (subMesh : SubMesh)
    (d : MaterialDefines) (e : Effect) :
  isFrozen (inherited m) = true ->
  materialDefines subMesh = Some d ->
  effect (_drawWrapper subMesh) = Some e ->
  let events := (bindForSubMesh scene flags mesh m subMesh).2 in
  if _mustRebind scene e subMesh (visibility mesh) then
    (texturesEnabled scene = true ->
     (forall t, _diffuseTexture (properties m) = Some t ->
                DiffuseTextureEnabled flags = true ->
                SetTexture "diffuseSampler" (textureId t) ∈ events)
     /\ (forall t, _reflectionTexture (properties m) = Some t ->
                   ReflectionTextureEnabled flags = true ->
                   exists id, SetTexture "reflectionSampler" id ∈ events))
    /\ (useUbo (inherited m) = true -> isSync (inherited m) = true ->
        _forceRebindOnNextCall (_drawWrapper subMesh) = false ->
        List.filter isUniformUpload events
        = UpdateFloat "fFovMultiplier" (_fovMultiplier m)
          :: List.filter isUniformUpload
               (bindTextures scene flags (set_activeEffect (Some e) m) d))
  else
    List.filter isUniformUpload events = []
    /\ List.filter isSetTexture events = [].
Proof.
  intros Hfrozen Hd He events. subst events.
  unfold bindForSubMesh. rewrite Hd, He.
  destruct (_mustRebind scene e subMesh (visibility mesh)).
  - cbn [snd orb]. split.
    + intros Htex. unfold rebind, bindTextures. simpl properties. rewrite Htex. split.
      * intros t -> ->. set_solver.
      * intros t -> ->.
        destruct (isSet d "REFLECTIONBLUR" && isSet d "TEXTURELODSUPPORT");
          [exists (textureId t)
          |destruct (negb (isSet d "REFLECTIONBLUR"));
           [exists (textureId t) | exists (orTexture (_lodTextureMid t) (textureId t))]];
          set_solver.
    + intros Hubo Hsync Hforce. unfold rebind. simpl inherited.
      rewrite Hubo, Hsync, Hforce, Hfrozen. cbn [negb orb app].
      cbn [List.filter isUniformUpload]. f_equal.
      rewrite !List.filter_app. unfold bindFrameValues. simpl inherited.
      rewrite !List.filter_app.
      destruct (lightsEnabled scene), (_useLogarithmicDepth (inherited m)),
        (truthy_ref (_imageProcessingConfiguration (set_activeEffect (Some e) m)));
        simpl; rewrite ?app_nil_r; reflexivity.
  - destruct (needToAlwaysBindUniformBuffers (getEngine scene));
      cbn [snd orb]; simpl inherited; rewrite Hfrozen; done.
Qed.

(** ** Stale reflection sub-modes *)

Lemma isSet_setBool_mono (d : MaterialDefines) (k k' : string) (b : bool) :
  (k' = k -> b = true) -> isSet d k = true -> isSet (setBool k' b d) k = true.
Proof.
  intros Hb Hset. destruct (decide (k' = k)) as [->|Hne].
  - rewrite isSet_setBool. auto.
  - by rewrite isSet_setBool_ne.
Qed.

(** While a reflection texture is in use, refreshing the reflection defines
    only ever sets sub-mode defines: one that was set stays set, whatever the
    coordinates mode of the texture now is. *)
Lemma reflectionDefines_keeps_submodes `{Collaborators}
    (scene : Scene) (flags : MaterialFlags) (m m1 : BackgroundMaterial)
    (d d1 : MaterialDefines) (t : BaseTexture) (k : string) :
  _reflectionTexture (properties m) = Some t ->
  ReflectionTextureEnabled flags = true ->
  reflectionDefines scene flags m d = Refreshed (d1, m1) ->
  k ∈ reflectionSubmodes ->
  isSet d k = true ->
  isSet d1 k = true.
Proof.
  intros Ht Hen Hr Hk Hset. unfold reflectionDefines in Hr. rewrite Ht, Hen in Hr.
  destruct (negb _); [done|].
  unfold reflectionSubmodes in Hk.
  destruct (reflectionFresnel (properties m)); injection Hr as <- _;
    destruct (decide (coordinatesMode t = INVCUBIC_MODE)) as [Hm|Hm];
    repeat (apply elem_of_cons in Hk as [->|Hk]);
    try (by apply elem_of_nil in Hk);
    repeat (apply isSet_setBool_mono; [done|]);
    done.
Qed.

(** C1: a reflection texture renders in planar mode, is switched to spherical
    mode (the textures partition is marked dirty) and renders again.  Both
    calls answer true, the second one recomputes the textures partition and
    requests a compilation, and the define set it serializes has
    REFLECTIONMAP_SPHERICAL and, left over from the planar mode,
    REFLECTIONMAP_PLANAR. *)
Theorem stale_reflection_submode_after_mode_change :
  result planarFrame = true
  /\ map (isSet (definesOf (subMeshAfter planarFrame))) reflectionSubmodes
     = [false; true; false; false; false; false; false; false; false; false]
  /\ _areTexturesDirty (definesOf (markSubMeshAsTexturesDirty (subMeshAfter planarFrame)))
     = true
  /\ result sphericalFrame = true
  /\ length (List.filter isCreateEffect (issued sphericalFrame)) = 1%nat
  /\ isSet (definesOf (subMeshAfter sphericalFrame)) "REFLECTIONMAP_SPHERICAL" = true
  /\ isSet (definesOf (subMeshAfter sphericalFrame)) "REFLECTIONMAP_PLANAR" = true.
Proof. vm_compute. repeat split. Qed.

(** ** Concrete runs *)

(** Against C2 as the specification words it: the diffuse texture is ready, the reflection texture
    is not; the call answers false, yet DIFFUSEHASALPHA went from false to
    true and the serialized key is another one. *)
Lemma failed_refresh_changes_defines :
  refreshFails (nextFrame plainScene) allFlags plainMesh false loadingMaterial loadingSubMesh
  /\ result loadingFrame = false
  /\ values (definesOf loadingSubMesh) !! "DIFFUSEHASALPHA" = Some (VBool false)
  /\ values (definesOf (subMeshAfter loadingFrame)) !! "DIFFUSEHASALPHA" = Some (VBool true)
  /\ toString (values (definesOf (subMeshAfter loadingFrame)))
     <> toString (values (definesOf loadingSubMesh)).
Proof.
  split; [|split; [|split; [|split]]].
  - split; [reflexivity|]. split; [reflexivity|].
    left. split; [reflexivity|]. split; [reflexivity|]. right. reflexivity.
  - reflexivity.
  - reflexivity.
  - reflexivity.
  - vm_compute. discriminate.
Qed.

(** Against C4 as the specification words it: with fog, point size and multiview in use, the
    compile request drops MULTIVIEW (position 1) before POINTSIZE
    (position 2). *)
Lemma multiview_dropped_before_pointsize :
  requestedDisableOrders (issued foggyFrame) = [["FOG"; "MULTIVIEW"; "POINTSIZE"]]
  /\ positionOf "MULTIVIEW" ["FOG"; "MULTIVIEW"; "POINTSIZE"] = Some 1%nat
  /\ positionOf "POINTSIZE" ["FOG"; "MULTIVIEW"; "POINTSIZE"] = Some 2%nat.
Proof. vm_compute. repeat split. Qed.

(** Against C5 as the specification words it: the material is frozen and has both textures; the
    first, forced bind binds the two samplers, the second bind has nothing to
    rebind and binds no sampler at all. *)
Lemma second_bind_binds_no_sampler :
  isFrozen (inherited firstBind.1) = true
  /\ List.filter isSetTexture firstBind.2
     = [SetTexture "diffuseSampler" 1; SetTexture "reflectionSampler" 2]
  /\ _mustRebind plainScene {| effectId := 1; effectIsReady := true |}
       (subMeshAfter texturedFrame) (visibility plainMesh) = false
  /\ secondBind.2
     = [SetMatrix "world"; Call "BindBonesParameters"; Call "_afterBind";
        UniformBufferUpdate]
  /\ List.filter isSetTexture secondBind.2 = [].
Proof. vm_compute. repeat split. Qed.


(** The fast path taken on a concrete frozen material: the frame after
    [texturedFrame]. *)
Lemma isReadyForSubMesh_frozen_fast_path_witness :
  isReadyForSubMesh (nextFrame plainScene) allFlags plainMesh false
    (materialAfter texturedFrame) (subMeshAfter texturedFrame)
  = {| result := true; materialAfter := materialAfter texturedFrame;
       subMeshAfter := subMeshAfter texturedFrame; issued := [] |}.
Proof.
  apply (isReadyForSubMesh_frozen_fast_path (nextFrame plainScene) allFlags plainMesh
           false (materialAfter texturedFrame) (subMeshAfter texturedFrame)
           {| effectId := 1; effectIsReady := true |});
    vm_compute; reflexivity.
Defined.

(** A levelled material with [useRGBColor] off, rendered for the first time. *)
Lemma lights_partition_highlight_and_shadow_witness :
  isSet
    (definesOf (subMeshAfter
       (isReadyForSubMesh plainScene allFlags plainMesh false levelledMaterial newSubMesh)))
    "USEHIGHLIGHTANDSHADOWCOLORS" = true.
Proof.
  assert (laterHelpersKeep "USEHIGHLIGHTANDSHADOWCOLORS") as Hkeep.
  { repeat split. }
  assert (reachesLights plainScene allFlags plainMesh false levelledMaterial newSubMesh
            (partitionValue levelledTextures).1 (partitionValue levelledTextures).2)
    as Hreach.
  { repeat split. }
  assert (_areLightsDirty (partitionValue levelledTextures).1 = true) as Hdirty.
  { reflexivity. }
  apply (proj2 (lights_partition_highlight_and_shadow plainScene allFlags plainMesh
                  false levelledMaterial newSubMesh _ _ Hkeep Hreach Hdirty));
    [reflexivity | left; reflexivity].
Defined.

Lemma materialDefines_definesOf (s : SubMesh) :
  is_Some (materialDefines s) -> materialDefines s = Some (definesOf s).
Proof. intros [d Hd]. unfold definesOf. by rewrite Hd. Qed.

(** The failed refresh of [loadingFrame]. *)
Lemma isReadyForSubMesh_failed_refresh_witness :
  result loadingFrame = false
  /\ issued loadingFrame = []
  /\ _drawWrapper (subMeshAfter loadingFrame) = _drawWrapper loadingSubMesh.
Proof.
  apply (isReadyForSubMesh_failed_refresh (nextFrame plainScene) allFlags plainMesh false
           loadingMaterial loadingSubMesh).
  split; [vm_compute; reflexivity|]. split; [vm_compute; reflexivity|].
  left. split; [vm_compute; reflexivity|]. split; [reflexivity|].
  right. vm_compute; reflexivity.
Defined.

Lemma settlingFrameBoundValues_settled (d : MaterialDefines) :
  values d !! "DEPTHPREPASS" = Some (VBool false) -> settlingFrameBoundValues d = d.
Proof. intros Hd. unfold settlingFrameBoundValues. by rewrite Hd. Qed.


(** The compile request of [foggyFrame]. *)
Lemma compile_request_fallbacks_witness :
  CreateEffect "background" foggyRequest
    ∈ issued (isReadyForSubMesh plainScene allFlags plainMesh false plainMaterial
                (withDefines foggyDefines newSubMesh))
  /\ exists d : MaterialDefines,
       defines foggyRequest = toString (values d)
       /\ fallbacks foggyRequest
          = (PrepareAttributesForBones (ownAttributes d) plainMesh d
               (HandleFallbacksForShadows d (ownFallbacks d)
                  (_maxSimultaneousLights (properties plainMaterial)))).2
       /\ fallbackDefines (ownFallbacks d)
          = ((if isSet d "FOG" then [(0, "FOG")] else [])
             ++ (if isSet d "POINTSIZE" then [(1, "POINTSIZE")] else [])
             ++ (if isSet d "MULTIVIEW" then [(0, "MULTIVIEW")] else []))%list
       /\ disableOrder (ownFallbacks d)
          = ((if isSet d "FOG" then ["FOG"] else [])
             ++ (if isSet d "MULTIVIEW" then ["MULTIVIEW"] else [])
             ++ (if isSet d "POINTSIZE" then ["POINTSIZE"] else []))%list.
Proof.
  assert (CreateEffect "background" foggyRequest
            ∈ issued (isReadyForSubMesh plainScene allFlags plainMesh false plainMaterial
                        (withDefines foggyDefines newSubMesh))) as Hev.
  { apply (bool_decide_unpack _). vm_compute. exact I. }
  split; [exact Hev|].
  exact (compile_request_fallbacks plainScene allFlags plainMesh false plainMaterial
           (withDefines foggyDefines newSubMesh) "background" foggyRequest Hev).
Defined.

(** The second bind of the frozen, textured material. *)
Lemma bindForSubMesh_frozen_witness :
  List.filter isUniformUpload secondBind.2 = []
  /\ List.filter isSetTexture secondBind.2 = [].
Proof.
  pose proof (bindForSubMesh_frozen plainScene allFlags plainMesh firstBind.1
                (subMeshAfter texturedFrame) (definesOf (subMeshAfter texturedFrame))
                {| effectId := 1; effectIsReady := true |}) as W.
  assert (isFrozen (inherited firstBind.1) = true) as Hfrozen
    by (vm_compute; reflexivity).
  assert (materialDefines (subMeshAfter texturedFrame)
          = Some (definesOf (subMeshAfter texturedFrame))) as Hd
    by (apply materialDefines_definesOf, (bool_decide_unpack _); vm_compute; exact I).
  assert (effect (_drawWrapper (subMeshAfter texturedFrame))
          = Some {| effectId := 1; effectIsReady := true |}) as He
    by (vm_compute; reflexivity).
  assert (_mustRebind plainScene {| effectId := 1; effectIsReady := true |}
            (subMeshAfter texturedFrame) (visibility plainMesh) = false) as Hm
    by (vm_compute; reflexivity).
  specialize (W Hfrozen Hd He). cbv zeta in W. rewrite Hm in W. exact W.
Defined.

(** A material attached to the scene's configuration, then to another one. *)
Lemma attach_keeps_one_observer_witness :
  let s := _attachImageProcessingConfiguration (Obj 0) (Obj 1)
             (newBackgroundMaterial plainSuper (Obj 0) noObservers) in
  (forall c, observersOf 7 s.2 c <> [] -> _imageProcessingConfiguration s.1 = Obj c)
  /\ (forall c, (length (observersOf 7 s.2 c) <= 1)%nat)
  /\ (forall sceneConfiguration,
        _attachImageProcessingConfiguration sceneConfiguration
          (_imageProcessingConfiguration s.1) s = s).
Proof.
  apply (attach_keeps_one_observer 7).
  apply reach_attach. apply reach_new; [reflexivity|].
  intros c. reflexivity.
Defined.

(** An opaque material with [shadowOnly] on. *)
Lemma needAlphaBlending_iff_witness :
  js_lt (alpha (inherited shadowOnlyMaterial)) (num 1) = false
  /\ needAlphaBlending shadowOnlyMaterial = true.
Proof.
  split; [reflexivity|].
  apply (proj2 (needAlphaBlending_iff shadowOnlyMaterial)). reflexivity.
Defined.

(** * Further properties *)

(** ** [fovMultiplier] *)

(** X1: a value of the range 0.0 - 2.0 is stored as it is, and assigning the
    getter's answer back changes nothing (both compared as JavaScript compares
    numbers). *)
Theorem set_fovMultiplier_idempotent (value : JSNumber) (m : BackgroundMaterial) :
  (in_range 0 2 value -> js_eq (fovMultiplier (set_fovMultiplier value m)) value = true)
  /\ js_eq
       (fovMultiplier
          (set_fovMultiplier (fovMultiplier (set_fovMultiplier value m))
             (set_fovMultiplier value m)))
       (fovMultiplier (set_fovMultiplier value m)) = true.
Proof.
  assert (forall v m', in_range 0 2 v ->
            js_eq (fovMultiplier (set_fovMultiplier v m')) v = true) as Hstored.
  { intros v m' Hv. pose proof (set_fovMultiplier_clamped v m') as Hc.
    destruct v as [| |q|]; try done. simpl in Hv.
    assert (clamped (Num q) = Num q) as Heq; [|by rewrite Heq in Hc].
    unfold clamped, js_gt, num. simpl isNaN. cbv iota.
    assert (js_lt (Num q) (Num (inject_Z 0)) = false) as ->
      by (compare_numbers; lra).
    assert (js_lt (Num (inject_Z 2)) (Num q) = false) as ->
      by (compare_numbers; lra).
    reflexivity. }
  split; [apply Hstored|].
  apply Hstored, set_fovMultiplier_in_range.
Qed.

Lemma set_fovMultiplier_idempotent_witness :
  js_eq (fovMultiplier (set_fovMultiplier (Num (3 # 2)) plainMaterial)) (Num (3 # 2)) = true.
Proof.
  apply (proj1 (set_fovMultiplier_idempotent (Num (3 # 2)) plainMaterial)).
  split; apply Qle_bool_iff; reflexivity.
Defined.

(** ** Render targets *)

(** X2: [hasRenderTargetTextures] answers true exactly when
    [getRenderTargetTextures] lists a texture; the list holds the diffuse and
    the reflection texture that are render targets, in this order, whatever
    the array held before. *)
Theorem renderTargets_listed (previous : list BaseTexture) (m : BackgroundMaterial) :
  (hasRenderTargetTextures m = true <-> getRenderTargetTextures previous m <> [])
  /\ getRenderTargetTextures previous m
     = (filter (fun t => isRenderTarget t = true)
          (option_list (_diffuseTexture (properties m))
           ++ option_list (_reflectionTexture (properties m))))%list
  /\ getRenderTargetTextures previous m = getRenderTargetTextures [] m.
Proof.
  unfold hasRenderTargetTextures, getRenderTargetTextures.
  destruct (_diffuseTexture (properties m)) as [td|];
    destruct (_reflectionTexture (properties m)) as [tr|]; simpl;
    try destruct (isRenderTarget td) eqn:Ed; try destruct (isRenderTarget tr) eqn:Er;
    simpl; rewrite ?filter_cons_True, ?filter_cons_False, ?filter_nil by congruence;
    rewrite ?filter_cons_True, ?filter_cons_False, ?filter_nil by congruence;
    (split; [split; [done|] | done]); try done; intros Hne; by destruct Hne.
Qed.

(** X3: [unbind] clears one sampler per render target that
    [getRenderTargetTextures] lists, then calls [super.unbind]; with no render
    target it only calls [super.unbind]. *)
Theorem unbind_clears_render_targets (previous : list BaseTexture) (m : BackgroundMaterial) :
  length (unbind m) = S (length (getRenderTargetTextures previous m))
  /\ last (unbind m) = Some SuperUnbind
  /\ (hasRenderTargetTextures m = false <-> unbind m = [SuperUnbind]).
Proof.
  unfold unbind, hasRenderTargetTextures, getRenderTargetTextures.
  destruct (_diffuseTexture (properties m)) as [td|];
    destruct (_reflectionTexture (properties m)) as [tr|]; simpl;
    try destruct (isRenderTarget td); try destruct (isRenderTarget tr);
    simpl; repeat split; done.
Qed.

(** ** What [bindForSubMesh] addresses *)

(** Splits a statement on all the calls of a trace along the way the trace
    was put together; [tac] settles one call. *)
Ltac each_call tac :=
  repeat match goal with
  | |- Forall _ (_ ++ _)%list => apply Forall_app; split
  | |- Forall _ (_ :: _) => constructor; [tac|]
  | |- Forall _ [] => constructor
  | |- Forall _ (if ?b then _ else _) => destruct b eqn:?
  | |- Forall _ (match ?x with _ => _ end) => destruct x eqn:?
  end.

(** X4: every texture [getRenderTargetTextures] lists, and every texture
    [bindForSubMesh] binds to the diffuse sampler, is one [hasTexture] answers
    true for. *)
Theorem hasTexture_covers_bound_textures `{Collaborators}
    (superHasTexture : nat -> bool) (previous : list BaseTexture)
    (scene : Scene) (flags : MaterialFlags) (mesh : Mesh)
    (m : BackgroundMaterial) (subMesh : SubMesh) :
  Forall (fun t => hasTexture superHasTexture m (textureId t) = true)
    (getRenderTargetTextures previous m)
  /\ Forall (fun e => forall id, e = SetTexture "diffuseSampler" id ->
                                 hasTexture superHasTexture m id = true)
       (bindForSubMesh scene flags mesh m subMesh).2.
Proof.
  assert (forall t, _diffuseTexture (properties m) = Some t ->
                    hasTexture superHasTexture m (textureId t) = true) as Hdiffuse.
  { intros t Ht. unfold hasTexture. rewrite Ht.
    destruct (superHasTexture (textureId t)); [done|].
    destruct (isTexture (_reflectionTexture (properties m)) (textureId t)); [done|].
    unfold isTexture. by rewrite bool_decide_eq_true_2. }
  assert (forall t, _reflectionTexture (properties m) = Some t ->
                    hasTexture superHasTexture m (textureId t) = true) as Hreflection.
  { intros t Ht. unfold hasTexture. rewrite Ht.
    destruct (superHasTexture (textureId t)); [done|].
    unfold isTexture at 1. by rewrite bool_decide_eq_true_2. }
  split.
  - unfold getRenderTargetTextures.
    destruct (_diffuseTexture (properties m)) as [td|];
      destruct (_reflectionTexture (properties m)) as [tr|]; simpl;
      try destruct (isRenderTarget td); try destruct (isRenderTarget tr); simpl;
      repeat constructor; auto.
  - unfold bindForSubMesh.
    destruct (materialDefines subMesh) as [d|]; [|by constructor].
    destruct (effect (_drawWrapper subMesh)) as [e|]; [|by constructor].
    destruct (_mustRebind _ _ _ _).
    + cbn [snd]. unfold rebind, uploadUniforms, bindTextures, bindFrameValues.
      simpl properties. simpl inherited.
      each_call ltac:(try (intros id [= <-]; by apply Hdiffuse); try (intros id; discriminate)).
    + destruct (needToAlwaysBindUniformBuffers _); cbn [snd];
        unfold bindFrameValues;
        each_call ltac:(intros id; discriminate).
Qed.

(** X5: whatever [bindForSubMesh] uploads goes to a uniform that
    [buildUniformLayout] declares, with the size the upload writes, and that
    is among the uniforms asked of the effect; whatever it binds goes to one
    of the samplers asked of the effect. *)
Theorem bindForSubMesh_well_addressed `{Collaborators}
    (scene : Scene) (flags : MaterialFlags) (mesh : Mesh)
    (m : BackgroundMaterial) (subMesh : SubMesh) :
  Forall (fun e => wellAddressed e = true) (bindForSubMesh scene flags mesh m subMesh).2.
Proof.
  unfold bindForSubMesh.
  destruct (materialDefines subMesh) as [d|]; [|by constructor].
  destruct (effect (_drawWrapper subMesh)) as [e|]; [|by constructor].
  destruct (_mustRebind _ _ _ _).
  - cbn [snd]. unfold rebind, uploadUniforms, bindTextures, bindFrameValues.
    each_call ltac:(reflexivity).
  - destruct (needToAlwaysBindUniformBuffers _); cbn [snd];
      unfold bindFrameValues; each_call ltac:(reflexivity).
Qed.

(** X6: [bindForSubMesh] does nothing at all, and leaves the material as it
    is, exactly when the sub-mesh has no define set or no effect; otherwise it
    sets the world matrix first and flushes the uniform buffer last. *)
Theorem bindForSubMesh_needs_defines_and_effect `{Collaborators}
    (scene : Scene) (flags : MaterialFlags) (mesh : Mesh)
    (m : BackgroundMaterial) (subMesh : SubMesh) :
  let bound := bindForSubMesh scene flags mesh m subMesh in
  if bool_decide (is_Some (materialDefines subMesh))
     && bool_decide (is_Some (effect (_drawWrapper subMesh)))
  then head bound.2 = Some (SetMatrix "world")
       /\ last bound.2 = Some UniformBufferUpdate
       /\ _activeEffect bound.1 = effect (_drawWrapper subMesh)
  else bound = (m, []).
Proof.
  unfold bindForSubMesh.
  destruct (materialDefines subMesh) as [d|]; [|done].
  destruct (effect (_drawWrapper subMesh)) as [e|]; [|done].
  rewrite !bool_decide_eq_true_2 by by eexists. cbn [andb].
  destruct (_mustRebind _ _ _ _); [|destruct (needToAlwaysBindUniformBuffers _)];
    cbn [fst snd]; (split; [reflexivity|]); (split; [|reflexivity]);
    rewrite !last_app; reflexivity.
Qed.

(** ** When the textures partition stops the check *)

(** X7: the textures partition stops the readiness check exactly when it is
    dirty, the scene has textures enabled, and the diffuse or the reflection
    texture is in use, enabled by [MaterialFlags] and not ready; a texture
    that is disabled, or any texture while the scene has textures disabled,
    never blocks. *)
Theorem refreshTextures_blocks_iff `{Collaborators}
    (scene : Scene) (flags : MaterialFlags) (m : BackgroundMaterial)
    (d : MaterialDefines) :
  (exists x, refreshTextures scene flags m d = NotReady x)
  <-> _areTexturesDirty d = true
      /\ texturesEnabled scene = true
      /\ (textureBlocks (_diffuseTexture (properties m)) (DiffuseTextureEnabled flags) = true
          \/ textureBlocks (_reflectionTexture (properties m))
               (ReflectionTextureEnabled flags) = true).
Proof.
  unfold refreshTextures, texturesPartition.
  destruct (_areTexturesDirty d); [|split; [by intros [? ?] | by intros (? & _)]].
  destruct (texturesEnabled scene); [|split; [by intros [? ?] | by intros (_ & ? & _)]].
  destruct (textureBlocks (_diffuseTexture (properties m)) (DiffuseTextureEnabled flags))
    eqn:Hdiffuse.
  { rewrite diffuseDefines_blocked by done. split; [auto | by eexists]. }
  assert (exists d', diffuseDefines flags m
            (if textureLOD (getEngine scene)
             then setBool "TEXTURELODSUPPORT" true (set_needUVs false d)
             else set_needUVs false d) = Refreshed d') as [d' ->].
  { unfold diffuseDefines, textureBlocks in *.
    destruct (_diffuseTexture (properties m)) as [t|], (DiffuseTextureEnabled flags);
      try by eexists.
    rewrite Hdiffuse. by eexists. }
  destruct (textureBlocks (_reflectionTexture (properties m))
              (ReflectionTextureEnabled flags)) eqn:Hreflection.
  { rewrite reflectionDefines_blocked by done. split; [auto | by eexists]. }
  split; [|by intros (_ & _ & [?|?])].
  intros [x Hx]. exfalso.
  unfold reflectionDefines, textureBlocks in *.
  destruct (_reflectionTexture (properties m)) as [t|], (ReflectionTextureEnabled flags);
    try done.
  rewrite Hreflection in Hx. by destruct (reflectionFresnel (properties m)).
Qed.

(** ** What a call leaves on the draw wrapper *)

Section OutcomeFacts.
Context `{Collaborators}.

Lemma finishReadiness_true (scene : Scene) (mesh : Mesh) (useInstances : bool)
    (m : BackgroundMaterial) (subMesh : SubMesh) (d : MaterialDefines) :
  let o := finishReadiness scene mesh useInstances m subMesh d in
  result o = true ->
  exists e, effect (_drawWrapper (subMeshAfter o)) = Some e
            /\ effectIsReady e = true
            /\ _wasPreviouslyReady (_drawWrapper (subMeshAfter o)) = true
            /\ _wasPreviouslyUsingInstances (_drawWrapper (subMeshAfter o))
               = Some useInstances
            /\ _renderId (definesOf (subMeshAfter o)) = getRenderId scene.
Proof.
  unfold finishReadiness.
  destruct (PrepareDefinesForAttributes _ _) as [changed d2].
  destruct (_isDirty d2); simpl.
  - destruct (effectIsReady _) eqn:He; [|done]. intros _. eexists. by repeat split.
  - destruct (effect (_drawWrapper subMesh)) as [e|] eqn:Heff; [|done].
    destruct (effectIsReady e) eqn:He; [|done]. intros _. exists e.
    simpl. by rewrite Heff.
Qed.

Lemma finishReadiness_flags (scene : Scene) (mesh : Mesh) (useInstances : bool)
    (m : BackgroundMaterial) (subMesh : SubMesh) (d : MaterialDefines) :
  let o := finishReadiness scene mesh useInstances m subMesh d in
  _forceRebindOnNextCall (_drawWrapper (subMeshAfter o))
  = _forceRebindOnNextCall (_drawWrapper subMesh)
  /\ (if result o
      then _wasPreviouslyReady (_drawWrapper (subMeshAfter o)) = true
      else _wasPreviouslyReady (_drawWrapper (subMeshAfter o))
           = _wasPreviouslyReady (_drawWrapper subMesh)
           /\ _wasPreviouslyUsingInstances (_drawWrapper (subMeshAfter o))
              = _wasPreviouslyUsingInstances (_drawWrapper subMesh)).
Proof.
  unfold finishReadiness.
  destruct (PrepareDefinesForAttributes _ _) as [changed d2].
  destruct (_isDirty d2); simpl.
  - by destruct (effectIsReady _).
  - destruct (effect (_drawWrapper subMesh)) as [e|] eqn:Heff; [|done].
    by destruct (effectIsReady e).
Qed.

End OutcomeFacts.

(** X8: when a call answers true without the shortcut of the base class, the
    draw wrapper holds an effect and is marked ready for this [useInstances]
    (past the frozen fast path the effect is ready and the define set carries
    the scene's render id); any later call for a frozen material with the same
    [useInstances] then answers true at once and changes nothing. *)
Theorem isReadyForSubMesh_true_marks_ready `{Collaborators}
    (scene : Scene) (flags : MaterialFlags) (mesh : Mesh) (useInstances : bool)
    (m : BackgroundMaterial) (subMesh : SubMesh) :
  let o := isReadyForSubMesh scene flags mesh useInstances m subMesh in
  result o = true ->
  _isReadyForSubMesh m scene (withDefines (definesOf subMesh) subMesh) = false ->
  (exists e, effect (_drawWrapper (subMeshAfter o)) = Some e
             /\ _wasPreviouslyReady (_drawWrapper (subMeshAfter o)) = true
             /\ _wasPreviouslyUsingInstances (_drawWrapper (subMeshAfter o))
                = Some useInstances
             /\ (frozenAndReady m subMesh useInstances = false ->
                 effectIsReady e = true
                 /\ _renderId (definesOf (subMeshAfter o)) = getRenderId scene))
  /\ forall scene' flags' mesh' m',
       isFrozen (inherited m') = true ->
       isReadyForSubMesh scene' flags' mesh' useInstances m' (subMeshAfter o)
       = {| result := true; materialAfter := m'; subMeshAfter := subMeshAfter o;
            issued := [] |}.
Proof.
  intros o Htrue Hshortcut.
  assert (exists e, effect (_drawWrapper (subMeshAfter o)) = Some e
             /\ _wasPreviouslyReady (_drawWrapper (subMeshAfter o)) = true
             /\ _wasPreviouslyUsingInstances (_drawWrapper (subMeshAfter o))
                = Some useInstances
             /\ (frozenAndReady m subMesh useInstances = false ->
                 effectIsReady e = true
                 /\ _renderId (definesOf (subMeshAfter o)) = getRenderId scene))
    as (e & He & Hready & Hinst & Hfull).
  { subst o. revert Htrue. unfold isReadyForSubMesh.
    destruct (frozenAndReady m subMesh useInstances) eqn:Hfrozen.
    - intros _. simpl. unfold frozenAndReady in Hfrozen.
      apply andb_prop in Hfrozen as [Ha Hb]. apply andb_prop in Ha as [Ha _].
      apply andb_prop in Hb as [Hb Hc].
      apply bool_decide_eq_true_1 in Ha as [e He], Hc.
      exists e. by repeat split.
    - rewrite Hshortcut.
      destruct (refreshTextures _ _ _ _) as [[d1 m1]|[d1 m1]]; [done|].
      destruct (imageProcessingPartition _ _ _); [done|].
      intros (e & ? & ? & ? & ? & ?)%finishReadiness_true.
      exists e. by repeat split. }
  split; [by exists e|].
  intros scene' flags' mesh' m' Hfrozen'.
  unfold isReadyForSubMesh, frozenAndReady.
  rewrite He, Hready, Hinst, Hfrozen'.
  by rewrite !bool_decide_eq_true_2 by (done || by eexists).
Qed.

(** The first frame of a material without textures. *)
Lemma isReadyForSubMesh_true_marks_ready_witness :
  let o := isReadyForSubMesh plainScene allFlags plainMesh false plainMaterial newSubMesh in
  (exists e, effect (_drawWrapper (subMeshAfter o)) = Some e
             /\ _wasPreviouslyReady (_drawWrapper (subMeshAfter o)) = true
             /\ _wasPreviouslyUsingInstances (_drawWrapper (subMeshAfter o)) = Some false
             /\ (frozenAndReady plainMaterial newSubMesh false = false ->
                 effectIsReady e = true
                 /\ _renderId (definesOf (subMeshAfter o)) = getRenderId plainScene))
  /\ forall scene' flags' mesh' m',
       isFrozen (inherited m') = true ->
       isReadyForSubMesh scene' flags' mesh' false m' (subMeshAfter o)
       = {| result := true; materialAfter := m'; subMeshAfter := subMeshAfter o;
            issued := [] |}.
Proof.
  apply (isReadyForSubMesh_true_marks_ready plainScene allFlags plainMesh false
           plainMaterial newSubMesh).
  - vm_compute. reflexivity.
  - vm_compute. reflexivity.
Defined.

(** X9: [isReadyForSubMesh] never clears the ready mark of the draw wrapper
    and never touches its force-rebind flag; a call that answers false leaves
    the ready mark and the recorded [useInstances] as they were. *)
Theorem isReadyForSubMesh_keeps_ready_mark `{Collaborators}
    (scene : Scene) (flags : MaterialFlags) (mesh : Mesh) (useInstances : bool)
    (m : BackgroundMaterial) (subMesh : SubMesh) :
  let o := isReadyForSubMesh scene flags mesh useInstances m subMesh in
  let before := _drawWrapper subMesh in
  let after := _drawWrapper (subMeshAfter o) in
  _forceRebindOnNextCall after = _forceRebindOnNextCall before
  /\ (_wasPreviouslyReady before = true -> _wasPreviouslyReady after = true)
  /\ (result o = false ->
      _wasPreviouslyReady after = _wasPreviouslyReady before
      /\ _wasPreviouslyUsingInstances after = _wasPreviouslyUsingInstances before).
Proof.
  intros o before after. subst o before after. unfold isReadyForSubMesh.
  destruct (frozenAndReady m subMesh useInstances); [done|].
  destruct (_isReadyForSubMesh _ _ _); [done|].
  destruct (refreshTextures _ _ _ _) as [[d1 m1]|[d1 m1]]; [done|].
  destruct (imageProcessingPartition _ _ _) as [d2|d2]; [done|].
  pose proof (finishReadiness_flags scene mesh useInstances m1
                (withDefines (definesOf subMesh) subMesh) (refreshMisc m1 d2))
    as [Hforce Hmark].
  cbv zeta in Hforce, Hmark. simpl _drawWrapper in Hforce, Hmark.
  destruct (result (finishReadiness _ _ _ _ _ _)).
  - split; [done|]. split; [done|]. done.
  - destruct Hmark as [Hr Hi]. split; [done|]. split; [by rewrite Hr|done].
Qed.

(** The failed refresh of [loadingFrame] leaves the ready mark of
    [bareFrame]. *)
Lemma isReadyForSubMesh_keeps_ready_mark_witness :
  let o := isReadyForSubMesh (nextFrame plainScene) allFlags plainMesh false
             loadingMaterial loadingSubMesh in
  let before := _drawWrapper loadingSubMesh in
  let after := _drawWrapper (subMeshAfter o) in
  _wasPreviouslyReady after = _wasPreviouslyReady before
  /\ _wasPreviouslyUsingInstances after = _wasPreviouslyUsingInstances before.
Proof.
  apply (isReadyForSubMesh_keeps_ready_mark (nextFrame plainScene) allFlags plainMesh false
           loadingMaterial loadingSubMesh).
  vm_compute. reflexivity.
Defined.

(** ** What the partitions write *)

Section PartitionFacts.
Context `{Collaborators}.

Lemma lightsAndMultiview_keeps (k : string) (scene : Scene) (mesh : Mesh)
    (m : BackgroundMaterial) (d : MaterialDefines) :
  earlyHelpersKeep k ->
  values (lightsAndMultiview scene mesh m d) !! k = values d !! k.
Proof.
  intros [Hlights Hmulti]. unfold lightsAndMultiview.
  rewrite (Hmulti scene). simpl. apply (Hlights scene mesh).
Qed.

Lemma refreshLights_keeps (k : string) (m : BackgroundMaterial) (d : MaterialDefines) :
  k <> "USEHIGHLIGHTANDSHADOWCOLORS" -> k <> "BACKMAT_SHADOWONLY" ->
  values (refreshLights m d) !! k = values d !! k.
Proof.
  intros H1 H2. unfold refreshLights, lightsPartition.
  destruct (_areLightsDirty d); [|done].
  by rewrite !values_setBool_ne by done.
Qed.

Lemma textureFlagsDefines_keeps (k : string) (m : BackgroundMaterial)
    (d : MaterialDefines) :
  k <> "PREMULTIPLYALPHA" -> k <> "USERGBCOLOR" -> k <> "NOISE" ->
  values (textureFlagsDefines m d) !! k = values d !! k.
Proof.
  intros H1 H2 H3. unfold textureFlagsDefines.
  by rewrite !values_setBool_ne by done.
Qed.

(** After the lights partition, with no cube reflection in the define set,
    the sky-box sub-mode is not written any more. *)
Lemma afterLights_keeps_skybox (scene : Scene) (mesh : Mesh)
    (useInstances : bool) (m : BackgroundMaterial) (subMesh : SubMesh)
    (d : MaterialDefines) :
  laterHelpersKeep "REFLECTIONMAP_SKYBOX" ->
  laterHelpersKeep "REFLECTIONMAP_3D" ->
  isSet d "REFLECTIONMAP_3D" = false ->
  values
    (definesOf
       (subMeshAfter
          match imageProcessingPartition scene m d with
          | NotReady defines =>
              {| result := false; materialAfter := m;
                 subMeshAfter := withDefines defines subMesh; issued := [] |}
          | Refreshed defines =>
              finishReadiness scene mesh useInstances m subMesh (refreshMisc m defines)
          end)) !! "REFLECTIONMAP_SKYBOX"
  = values d !! "REFLECTIONMAP_SKYBOX".
Proof.
  intros Hsky H3d Hflat. pose proof Hsky as (Hip & _). pose proof H3d as (Hip3 & _).
  assert (forall d', values d' !! "REFLECTIONMAP_3D" = values d !! "REFLECTIONMAP_3D" ->
                     values (refreshMisc m d') !! "REFLECTIONMAP_SKYBOX"
                     = values d' !! "REFLECTIONMAP_SKYBOX") as Hmisc.
  { intros d' H3. unfold refreshMisc, miscPartition.
    destruct (_areMiscDirty d'); [|done].
    rewrite (isSet_ext d d') by done. rewrite Hflat. cbn [andb].
    by rewrite values_setBool_ne. }
  unfold imageProcessingPartition.
  destruct (_areImageProcessingDirty d), (_imageProcessingConfiguration m) as [| |c];
    try (rewrite finishReadiness_keeps, Hmisc by done; done).
  destruct (negb _); [done|].
  rewrite finishReadiness_keeps, Hmisc by (done || apply Hip3). apply Hip.
Qed.

End PartitionFacts.

(** X10: while the textures partition is clean, a call leaves every define
    alone that the helpers leave alone, apart from the four defines of the
    lights and misc partitions: marking the lights dirty alters no
    texture-derived define. *)
Theorem clean_textures_partition_writes_nothing `{Collaborators}
    (scene : Scene) (flags : MaterialFlags) (mesh : Mesh) (useInstances : bool)
    (m : BackgroundMaterial) (subMesh : SubMesh) (k : string) :
  earlyHelpersKeep k ->
  laterHelpersKeep k ->
  k ∉ lightsAndMiscDefines ->
  _areTexturesDirty (lightsAndMultiview scene mesh m (definesOf subMesh)) = false ->
  values (definesOf (subMeshAfter (isReadyForSubMesh scene flags mesh useInstances m subMesh)))
    !! k
  = values (definesOf subMesh) !! k.
Proof.
  intros Hearly Hlater Hk Hclean.
  assert (k <> "USEHIGHLIGHTANDSHADOWCOLORS" /\ k <> "BACKMAT_SHADOWONLY"
          /\ k <> "PROJECTED_GROUND" /\ k <> "REFLECTIONMAP_SKYBOX")
    as (K1 & K2 & K3 & K4).
  { unfold lightsAndMiscDefines in Hk. repeat split; intros ->; apply Hk; set_solver. }
  unfold isReadyForSubMesh.
  destruct (frozenAndReady _ _ _); [done|].
  destruct (_isReadyForSubMesh _ _ _); [done|].
  unfold refreshTextures. rewrite Hclean.
  rewrite afterLights_keeps by done.
  rewrite refreshLights_keeps by done.
  by apply lightsAndMultiview_keeps.
Qed.

(** The frame after [planarFrame], with only the lights marked dirty. *)
Lemma clean_textures_partition_writes_nothing_witness :
  values (definesOf (subMeshAfter
            (isReadyForSubMesh (nextFrame plainScene) allFlags plainMesh false
               (materialAfter planarFrame)
               (markSubMeshAsLightsDirty (subMeshAfter planarFrame)))))
    !! "REFLECTIONMAP_PLANAR"
  = values (definesOf (markSubMeshAsLightsDirty (subMeshAfter planarFrame)))
      !! "REFLECTIONMAP_PLANAR".
Proof.
  apply (clean_textures_partition_writes_nothing (nextFrame plainScene) allFlags plainMesh
           false (materialAfter planarFrame)
           (markSubMeshAsLightsDirty (subMeshAfter planarFrame)) "REFLECTIONMAP_PLANAR").
  - repeat split.
  - repeat split.
  - apply (bool_decide_unpack _). vm_compute. exact I.
  - vm_compute. reflexivity.
Defined.

(** Reads a define off a chain of assignments. *)
Ltac read_define :=
  repeat first [ rewrite isSet_setBool | rewrite isSet_setBool_ne by done ].

Section ReflectionFacts.
Context `{Collaborators}.

Lemma reflectionDefines_off (scene : Scene) (flags : MaterialFlags)
    (m : BackgroundMaterial) (d : MaterialDefines) :
  reflectionInUse flags m = false ->
  exists dc, reflectionDefines scene flags m d = Refreshed (dc, m)
             /\ Forall (fun k => isSet dc k = false) reflectionDefineNames.
Proof.
  intros Hoff. unfold reflectionDefines, reflectionInUse in *.
  eexists. split.
  - destruct (_reflectionTexture (properties m)) as [t|],
      (ReflectionTextureEnabled flags); try discriminate; reflexivity.
  - unfold reflectionDefineNames.
    repeat (apply List.Forall_cons; [read_define; reflexivity|]). apply List.Forall_nil.
Qed.

End ReflectionFacts.

(** X11: when a call gets past the fast paths with the textures partition
    dirty and the scene's textures enabled, the diffuse texture does not stop
    it, and no reflection texture is in use (none set, or reflection textures
    disabled by [MaterialFlags]), every reflection define is false afterwards,
    whatever it was before.  The helpers that run later in the call are taken
    not to write these defines. *)
Theorem reflection_off_clears_reflection_defines `{Collaborators}
    (scene : Scene) (flags : MaterialFlags) (mesh : Mesh) (useInstances : bool)
    (m : BackgroundMaterial) (subMesh : SubMesh) :
  Forall (fun k => laterHelpersKeep k) reflectionDefineNames ->
  frozenAndReady m subMesh useInstances = false ->
  _isReadyForSubMesh m scene (withDefines (definesOf subMesh) subMesh) = false ->
  _areTexturesDirty (lightsAndMultiview scene mesh m (definesOf subMesh)) = true ->
  texturesEnabled scene = true ->
  textureBlocks (_diffuseTexture (properties m)) (DiffuseTextureEnabled flags) = false ->
  reflectionInUse flags m = false ->
  Forall
    (fun k =>
       isSet (definesOf (subMeshAfter
                (isReadyForSubMesh scene flags mesh useInstances m subMesh))) k = false)
    reflectionDefineNames.
Proof.
  intros Hkeep Hfrozen Hshortcut Hdirty Henabled Hdiffuse Hoff.
  rewrite Forall_forall in Hkeep.
  unfold isReadyForSubMesh. rewrite Hfrozen, Hshortcut.
  unfold refreshTextures, texturesPartition. rewrite Hdirty, Henabled.
  set (d0 := if textureLOD (getEngine scene) then _ else _).
  assert (exists d', diffuseDefines flags m d0 = Refreshed d') as [d' ->].
  { unfold diffuseDefines, textureBlocks in *.
    destruct (_diffuseTexture (properties m)) as [t|], (DiffuseTextureEnabled flags);
      try by eexists.
    rewrite Hdiffuse. by eexists. }
  destruct (reflectionDefines_off scene flags m d' Hoff) as (dc & -> & Hcleared).
  rewrite Forall_forall in Hcleared.
  set (d1 := refreshLights m (textureFlagsDefines m dc)).
  assert (forall k, k ∈ reflectionDefineNames ->
                    values d1 !! k = values dc !! k) as Hd1.
  { intros k Hk. subst d1. unfold reflectionDefineNames in Hk.
    repeat (apply elem_of_cons in Hk as [->|Hk]); try (by apply elem_of_nil in Hk);
      by rewrite refreshLights_keeps, textureFlagsDefines_keeps by done. }
  assert ("REFLECTIONMAP_3D" ∈ reflectionDefineNames) as H3d
    by (unfold reflectionDefineNames; by repeat constructor).
  assert ("REFLECTIONMAP_SKYBOX" ∈ reflectionDefineNames) as Hsky
    by (unfold reflectionDefineNames; by repeat constructor).
  apply Forall_forall. intros k Hk.
  etrans; [|apply (Hcleared k Hk)]. apply isSet_ext. rewrite <- (Hd1 k Hk).
  destruct (decide (k = "REFLECTIONMAP_SKYBOX")) as [->|Hne].
  - apply afterLights_keeps_skybox; [by apply Hkeep | by apply Hkeep |].
    rewrite (isSet_ext dc d1) by by apply Hd1. by apply Hcleared.
  - apply afterLights_keeps; [by apply Hkeep | | done].
    intros ->. unfold reflectionDefineNames in Hk.
    repeat (apply elem_of_cons in Hk as [?|Hk]); try done. by apply elem_of_nil in Hk.
Qed.

(** The frame after [planarFrame], the reflection texture taken away. *)
Lemma reflection_off_clears_reflection_defines_witness :
  Forall
    (fun k =>
       isSet (definesOf (subMeshAfter
                (isReadyForSubMesh (nextFrame plainScene) allFlags plainMesh false
                   clearedMaterial (markSubMeshAsTexturesDirty (subMeshAfter planarFrame)))))
         k = false)
    reflectionDefineNames.
Proof.
  apply (reflection_off_clears_reflection_defines (nextFrame plainScene) allFlags plainMesh
           false clearedMaterial (markSubMeshAsTexturesDirty (subMeshAfter planarFrame))).
  - repeat (apply List.Forall_cons; [repeat split|]). apply List.Forall_nil.
  - vm_compute. reflexivity.
  - vm_compute. reflexivity.
  - vm_compute. reflexivity.
  - reflexivity.
  - reflexivity.
  - reflexivity.
Defined.

Lemma isSet_setBool_bool_decide (d : MaterialDefines) (k k' : string) (b : bool) :
  isSet (setBool k' b d) k = if bool_decide (k = k') then b else isSet d k.
Proof.
  case_bool_decide as Hk.
  - subst k'. apply isSet_setBool.
  - apply isSet_setBool_ne. congruence.
Qed.

(** X12: on a define set in which no reflection sub-mode is set, as a new
    define set is, refreshing the reflection defines for a ready texture sets
    exactly the sub-mode of the texture's coordinates mode, and INVERTCUBICMAP
    with it for the inverted cube mode. *)
Theorem reflectionDefines_sets_one_submode `{Collaborators}
    (scene : Scene) (flags : MaterialFlags) (m : BackgroundMaterial)
    (d : MaterialDefines) (t : BaseTexture) :
  _reflectionTexture (properties m) = Some t ->
  ReflectionTextureEnabled flags = true ->
  isReadyOrNotBlocking t = true ->
  Forall (fun k => isSet d k = false) reflectionSubmodes ->
  exists d1 m1,
    reflectionDefines scene flags m d = Refreshed (d1, m1)
    /\ Forall
         (fun k =>
            isSet d1 k
            = bool_decide (k = reflectionModeDefine (coordinatesMode t))
              || (bool_decide (k = "INVERTCUBICMAP")
                  && bool_decide (coordinatesMode t = INVCUBIC_MODE)))
         reflectionSubmodes.
Proof.
  intros Ht Hen Hready Hfresh. unfold reflectionDefines. rewrite Ht, Hen, Hready.
  cbn [negb].
  assert (forall k, k ∈ reflectionSubmodes -> isSet d k = false) as Hd
    by by apply Forall_forall.
  unfold reflectionSubmodes in Hd.
  destruct (reflectionFresnel (properties m)); eexists _, _;
    (split; [reflexivity|]);
    destruct (decide (coordinatesMode t = INVCUBIC_MODE)) as [Hm|Hm];
    unfold reflectionSubmodes;
    repeat (apply List.Forall_cons;
            [cbv beta;
             first [rewrite (bool_decide_eq_true_2 _ Hm)
                   |rewrite (bool_decide_eq_false_2 _ Hm)];
             do 2 rewrite isSet_setBool_ne by done;
             rewrite isSet_setBool_bool_decide;
             read_define;
             rewrite ?Hd by (by repeat constructor);
             destruct (bool_decide (_ = reflectionModeDefine _)); reflexivity
            |]);
    apply List.Forall_nil.
Qed.

(** A planar reflection texture on a new define set. *)
Lemma reflectionDefines_sets_one_submode_witness :
  exists d1 m1,
    reflectionDefines plainScene allFlags planarMaterial newBackgroundMaterialDefines
    = Refreshed (d1, m1)
    /\ Forall
         (fun k =>
            isSet d1 k
            = bool_decide
                (k = reflectionModeDefine (coordinatesMode (texture 2 true PLANAR_MODE)))
              || (bool_decide (k = "INVERTCUBICMAP")
                  && bool_decide
                       (coordinatesMode (texture 2 true PLANAR_MODE) = INVCUBIC_MODE)))
         reflectionSubmodes.
Proof.
  apply (reflectionDefines_sets_one_submode plainScene allFlags planarMaterial
           newBackgroundMaterialDefines (texture 2 true PLANAR_MODE)).
  - reflexivity.
  - reflexivity.
  - reflexivity.
  - repeat (apply List.Forall_cons; [vm_compute; reflexivity|]). apply List.Forall_nil.
Defined.

(** ** Compile requests *)

Section RequestFacts.
Context `{Collaborators}.

Lemma finishReadiness_requests (scene : Scene) (mesh : Mesh) (useInstances : bool)
    (m : BackgroundMaterial) (subMesh : SubMesh) (d : MaterialDefines) :
  let o := finishReadiness scene mesh useInstances m subMesh d in
  let requests := List.filter isCreateEffect (issued o) in
  (length requests <= 1)%nat
  /\ length (List.filter isResetCachedMaterial (issued o)) = length requests
  /\ length (List.filter isUniformBufferCreate (issued o)) = length requests
  /\ (requests <> [] ->
      clean (definesOf (subMeshAfter o))
      /\ exists options,
           requests = [CreateEffect "background" options]
           /\ effect (_drawWrapper (subMeshAfter o))
              = Some (createEffect "background" options)).
Proof.
  unfold finishReadiness.
  destruct (PrepareDefinesForAttributes _ _) as [changed d2].
  destruct (changed && _ && _); destruct (_isDirty d2); simpl;
    try (destruct (effectIsReady _); simpl;
         (split; [lia|]); (split; [done|]); (split; [done|]);
         intros _; (split; [by repeat split|]); by eexists);
    destruct (effect (_drawWrapper subMesh)) as [e|]; try destruct (effectIsReady e);
    simpl; (split; [lia|]); (split; [done|]); (split; [done|]); done.
Qed.

End RequestFacts.

(** X13: one call issues at most one compile request; it resets the scene's
    cached material and rebuilds the uniform layout exactly as often; and
    when it does request a compilation, the effect the engine answers with is
    on the draw wrapper and the define set is left processed, all partitions
    clean. *)
Theorem isReadyForSubMesh_compiles_at_most_once `{Collaborators}
    (scene : Scene) (flags : MaterialFlags) (mesh : Mesh) (useInstances : bool)
    (m : BackgroundMaterial) (subMesh : SubMesh) :
  let o := isReadyForSubMesh scene flags mesh useInstances m subMesh in
  let requests := List.filter isCreateEffect (issued o) in
  (length requests <= 1)%nat
  /\ length (List.filter isResetCachedMaterial (issued o)) = length requests
  /\ length (List.filter isUniformBufferCreate (issued o)) = length requests
  /\ (requests <> [] ->
      clean (definesOf (subMeshAfter o))
      /\ exists options,
           requests = [CreateEffect "background" options]
           /\ effect (_drawWrapper (subMeshAfter o))
              = Some (createEffect "background" options)).
Proof.
  unfold isReadyForSubMesh.
  destruct (frozenAndReady _ _ _); [simpl; repeat split; (lia || done)|].
  destruct (_isReadyForSubMesh _ _ _); [simpl; repeat split; (lia || done)|].
  destruct (refreshTextures _ _ _ _) as [[d1 m1]|[d1 m1]];
    [simpl; repeat split; (lia || done)|].
  destruct (imageProcessingPartition _ _ _) as [d2|d2];
    [simpl; repeat split; (lia || done)|].
  apply finishReadiness_requests.
Qed.

(** The compile request of the first frame with fog, point size and
    multiview. *)
Lemma isReadyForSubMesh_compiles_at_most_once_witness :
  let o := isReadyForSubMesh plainScene allFlags plainMesh false plainMaterial
             (withDefines foggyDefines newSubMesh) in
  let requests := List.filter isCreateEffect (issued o) in
  clean (definesOf (subMeshAfter o))
  /\ exists options,
       requests = [CreateEffect "background" options]
       /\ effect (_drawWrapper (subMeshAfter o))
          = Some (createEffect "background" options).
Proof.
  apply (isReadyForSubMesh_compiles_at_most_once plainScene allFlags plainMesh false
           plainMaterial (withDefines foggyDefines newSubMesh)).
  apply (bool_decide_unpack _). vm_compute. exact I.
Defined.

(** ** Ground projection *)

Lemma refreshed_value {A : Type} (p : Partition A) :
  isRefreshed p = true -> p = Refreshed (partitionValue p).
Proof. by destruct p. Qed.

Lemma refreshed_pair {A B : Type} (p : Partition (A * B)) :
  isRefreshed p = true -> p = Refreshed ((partitionValue p).1, (partitionValue p).2).
Proof. by destruct p as [[??]|[??]]. Qed.

(** X14: after a call that recomputes the misc partition, PROJECTED_GROUND is
    set exactly when REFLECTIONMAP_3D is set and ground projection is enabled,
    and then REFLECTIONMAP_SKYBOX is set with it; with ground projection off,
    REFLECTIONMAP_SKYBOX keeps the value it had.  The helpers that run later
    in the call are taken not to write these three defines. *)
Theorem misc_partition_projected_ground `{Collaborators}
    (scene : Scene) (flags : MaterialFlags) (mesh : Mesh) (useInstances : bool)
    (m : BackgroundMaterial) (subMesh : SubMesh)
    (d2 : MaterialDefines) (m1 : BackgroundMaterial) :
  laterHelpersKeep "PROJECTED_GROUND" ->
  laterHelpersKeep "REFLECTIONMAP_SKYBOX" ->
  laterHelpersKeep "REFLECTIONMAP_3D" ->
  reachesMisc scene flags mesh useInstances m subMesh d2 m1 ->
  _areMiscDirty d2 = true ->
  let after :=
    definesOf (subMeshAfter (isReadyForSubMesh scene flags mesh useInstances m subMesh)) in
  isSet after "PROJECTED_GROUND"
  = isSet after "REFLECTIONMAP_3D" && _enableGroundProjection (properties m)
  /\ isSet after "REFLECTIONMAP_SKYBOX"
     = isSet after "PROJECTED_GROUND" || isSet d2 "REFLECTIONMAP_SKYBOX".
Proof.
  intros Hpg Hsky H3d (d1 & (Hfrozen & Hshortcut & Htex) & Hip) Hdirty after.
  subst after. unfold isReadyForSubMesh.
  rewrite Hfrozen, Hshortcut, Htex, Hip.
  rewrite (isSet_ext (refreshMisc m1 d2) _ "PROJECTED_GROUND"),
    (isSet_ext (refreshMisc m1 d2) _ "REFLECTIONMAP_3D"),
    (isSet_ext (refreshMisc m1 d2) _ "REFLECTIONMAP_SKYBOX")
    by by apply finishReadiness_keeps.
  unfold refreshMisc. rewrite Hdirty. unfold miscPartition.
  rewrite (refreshTextures_properties _ _ _ _ _ _ Htex).
  destruct (isSet d2 "REFLECTIONMAP_3D" && _enableGroundProjection (properties m))
    eqn:Hcond.
  - by read_define.
  - by read_define.
Qed.

(** The first frame of a cube reflection texture projected on the ground. *)
Lemma misc_partition_projected_ground_witness :
  let after :=
    definesOf (subMeshAfter
      (isReadyForSubMesh plainScene allFlags plainMesh false projectedMaterial newSubMesh)) in
  isSet after "PROJECTED_GROUND"
  = isSet after "REFLECTIONMAP_3D" && _enableGroundProjection (properties projectedMaterial)
  /\ isSet after "REFLECTIONMAP_SKYBOX"
     = isSet after "PROJECTED_GROUND"
       || isSet (partitionValue projectedLights) "REFLECTIONMAP_SKYBOX".
Proof.
  apply (misc_partition_projected_ground plainScene allFlags plainMesh false
           projectedMaterial newSubMesh (partitionValue projectedLights)
           (partitionValue projectedTextures).2).
  - repeat split.
  - repeat split.
  - repeat split.
  - exists (partitionValue projectedTextures).1.
    split; [split; [|split]|].
    + vm_compute. reflexivity.
    + vm_compute. reflexivity.
    + apply (refreshed_pair projectedTextures). vm_compute. reflexivity.
    + unfold projectedLights. apply refreshed_value. vm_compute. reflexivity.
  - vm_compute. reflexivity.
Defined.

(** ** Subscribing and unsubscribing *)

Lemma removeFirst_other_owner (uid : nat) (o : Observer) (l : list Observer) :
  observerOwner o <> uid ->
  filter (fun x => observerOwner x = uid) (removeFirst o l)
  = filter (fun x => observerOwner x = uid) l.
Proof.
  intros Ho. induction l as [|x l IH]; [done|].
  simpl. destruct (decide (x = o)) as [->|Hne].
  - by rewrite filter_cons_False.
  - destruct (decide (observerOwner x = uid)).
    + rewrite !filter_cons_True by done. by rewrite IH.
    + by rewrite !filter_cons_False.
Qed.

Lemma observersOf_remove_other (uid c c' : nat) (o : Observer) (w : Observables) :
  observerOwner o <> uid ->
  observersOf uid (observable_remove c o w) c' = observersOf uid w c'.
Proof.
  intros Ho. unfold observersOf, observable_remove. simpl.
  destruct (decide (c' = c)) as [->|Hne].
  - rewrite lookup_total_insert_eq. by apply removeFirst_other_owner.
  - by rewrite lookup_total_insert_ne.
Qed.

Lemma observersOf_add_other (uid owner c c' : nat) (w : Observables) :
  owner <> uid ->
  observersOf uid (observable_add c owner w).2 c' = observersOf uid w c'.
Proof.
  intros Ho. unfold observersOf, observable_add. simpl.
  destruct (decide (c' = c)) as [->|Hne].
  - rewrite lookup_total_insert_eq, filter_app.
    rewrite (filter_cons_False _ _ []) by done. by rewrite app_nil_r.
  - by rewrite lookup_total_insert_ne.
Qed.

(** X15: after [dispose] no configuration notifies the material any more,
    whatever it had been attached to. *)
Theorem dispose_unsubscribes (uid : nat) (s : BackgroundMaterial * Observables) :
  Reachable uid s ->
  forall c, observersOf uid (dispose s).2 c = [].
Proof.
  intros Hreach%reachable_invariant c. destruct s as [m w].
  pose proof (detach_clears uid m w Hreach c) as Hclear.
  unfold dispose.
  by destruct (_imageProcessingConfiguration m), (_imageProcessingObserver m).
Qed.

(** A material attached to another configuration, then disposed of. *)
Lemma dispose_unsubscribes_witness :
  observersOf 7
    (dispose (_attachImageProcessingConfiguration (Obj 0) (Obj 1)
                (newBackgroundMaterial plainSuper (Obj 0) noObservers))).2 1
  = [].
Proof.
  apply (dispose_unsubscribes 7).
  apply reach_attach. apply reach_new; [reflexivity|].
  intros c. reflexivity.
Defined.

(** X16: attaching a configuration other than the one in use leaves the
    material with the given configuration, or with the scene's when none is
    given, and with exactly one observer, on that configuration, when it is
    an object. *)
Theorem attach_subscribes_once (uid : nat) (sceneConfiguration configuration : JSRef)
    (s : BackgroundMaterial * Observables) :
  Reachable uid s ->
  configuration <> _imageProcessingConfiguration s.1 ->
  let s' := _attachImageProcessingConfiguration sceneConfiguration configuration s in
  let picked := if truthy_ref configuration then configuration else sceneConfiguration in
  _imageProcessingConfiguration s'.1 = picked
  /\ forall c, length (observersOf uid s'.2 c) = if decide (picked = Obj c) then 1%nat else 0%nat.
Proof.
  intros Hreach%reachable_invariant Hne. destruct s as [m w].
  pose proof (detach_clears uid m w Hreach) as Hclear.
  destruct Hreach as (Huid & _ & _). simpl in Huid, Hne.
  cbv zeta. unfold _attachImageProcessingConfiguration, ref_eq.
  rewrite bool_decide_eq_false_2 by done.
  set (w1 := match _imageProcessingConfiguration m, _imageProcessingObserver m with
             | Obj c0, Some o => observable_remove c0 o w
             | _, _ => w
             end) in *.
  replace (if negb (truthy_ref configuration) then sceneConfiguration else configuration)
    with (if truthy_ref configuration then configuration else sceneConfiguration)
    by by destruct (truthy_ref configuration).
  destruct (if truthy_ref configuration then configuration else sceneConfiguration)
    as [| |c0].
  1, 2: split; [done|]; intros c; cbn [fst snd]; rewrite Hclear;
    by rewrite decide_False.
  destruct (observable_add c0 (uniqueId (inherited m)) w1) as [o w2] eqn:Hadd.
  cbn [fst snd]. split; [done|]. intros c.
  assert (w2 = (observable_add c0 uid w1).2) as -> by by rewrite <- Huid, Hadd.
  rewrite observersOf_add, Hclear.
  destruct (decide (c = c0)) as [->|Hc].
  - by rewrite decide_True.
  - rewrite decide_False by congruence. by rewrite Hclear.
Qed.

(** A new material attached to a configuration of its own. *)
Lemma attach_subscribes_once_witness :
  let s' := _attachImageProcessingConfiguration (Obj 0) (Obj 1)
              (newBackgroundMaterial plainSuper (Obj 0) noObservers) in
  let picked := if truthy_ref (Obj 1) then Obj 1 else Obj 0 in
  _imageProcessingConfiguration s'.1 = picked
  /\ forall c, length (observersOf 7 s'.2 c)
               = if decide (picked = Obj c) then 1%nat else 0%nat.
Proof.
  apply (attach_subscribes_once 7 (Obj 0) (Obj 1)
           (newBackgroundMaterial plainSuper (Obj 0) noObservers)).
  - apply reach_new; [reflexivity|]. intros c. reflexivity.
  - apply (bool_decide_unpack _). vm_compute. exact I.
Defined.

(** X17: attaching a configuration to a material, or disposing of the
    material, leaves the observers of every other material where they are. *)
Theorem attach_spares_other_observers (uid other : nat)
    (sceneConfiguration configuration : JSRef) (s : BackgroundMaterial * Observables) :
  Reachable uid s ->
  other <> uid ->
  forall c,
    observersOf other
      (_attachImageProcessingConfiguration sceneConfiguration configuration s).2 c
    = observersOf other s.2 c
    /\ observersOf other (dispose s).2 c = observersOf other s.2 c.
Proof.
  intros (Huid & Hown & _)%reachable_invariant Hother c. destruct s as [m w].
  simpl in Huid, Hown.
  assert (forall c',
            observersOf other
              match _imageProcessingConfiguration m, _imageProcessingObserver m with
              | Obj c0, Some o => observable_remove c0 o w
              | _, _ => w
              end c' = observersOf other w c') as Hdetach.
  { intros c'.
    destruct (_imageProcessingConfiguration m) as [| |c0]; try done.
    destruct (_imageProcessingObserver m) as [o|]; [|done].
    apply observersOf_remove_other. rewrite (Hown o) by done. congruence. }
  split.
  - unfold _attachImageProcessingConfiguration.
    destruct (ref_eq configuration (_imageProcessingConfiguration m)); [done|].
    destruct (if negb (truthy_ref configuration) then sceneConfiguration else configuration)
      as [| |c0]; try apply Hdetach.
    destruct (observable_add c0 (uniqueId (inherited m)) _) as [o w2] eqn:Hadd.
    simpl. replace w2 with (observable_add c0 (uniqueId (inherited m))
      match _imageProcessingConfiguration m, _imageProcessingObserver m with
      | Obj c0, Some o => observable_remove c0 o w
      | _, _ => w
      end).2 by by rewrite Hadd.
    rewrite observersOf_add_other by congruence. apply Hdetach.
  - unfold dispose. simpl.
    pose proof (Hdetach c) as Hd.
    by destruct (_imageProcessingConfiguration m), (_imageProcessingObserver m).
Qed.

(** Material 7 changes its configuration and is disposed of; the observer of
    material 8 stays on the scene's configuration. *)
Lemma attach_spares_other_observers_witness :
  observersOf 8
    (_attachImageProcessingConfiguration (Obj 0) (Obj 1)
       (newBackgroundMaterial plainSuper (Obj 0) sharedObservers)).2 0
  = observersOf 8 (newBackgroundMaterial plainSuper (Obj 0) sharedObservers).2 0
  /\ observersOf 8 (dispose (newBackgroundMaterial plainSuper (Obj 0) sharedObservers)).2 0
     = observersOf 8 (newBackgroundMaterial plainSuper (Obj 0) sharedObservers).2 0.
Proof.
  apply (attach_spares_other_observers 7 8 (Obj 0) (Obj 1)
           (newBackgroundMaterial plainSuper (Obj 0) sharedObservers)).
  - apply reach_new; [reflexivity|]. intros c.
    unfold observersOf, sharedObservers, onUpdateParameters.
    destruct (decide (c = 0%nat)) as [->|Hc]; [reflexivity|].
    by rewrite lookup_total_singleton_ne.
  - lia.
Defined.

(** ** One write per slot *)

Section SlotFacts.
Context `{Collaborators}.

Lemma uploadUniforms_names (scene : Scene) (flags : MaterialFlags)
    (m : BackgroundMaterial) (d : MaterialDefines) :
  omap uploadName (uploadUniforms scene flags m d)
  `sublist_of` [ "vDiffuseInfos"; "reflectionMatrix"; "vReflectionInfos";
                 "vReflectionMicrosurfaceInfos"; "shadowLevel"; "alpha"; "pointSize";
                 "vPrimaryColor"; "vPrimaryColorShadow" ].
Proof.
  unfold uploadUniforms.
  destruct (texturesEnabled scene), (_diffuseTexture (properties m)),
    (DiffuseTextureEnabled flags), (_reflectionTexture (properties m)),
    (ReflectionTextureEnabled flags), (js_gt _ _), (pointsCloud _), (isSet d _);
    cbn; repeat constructor.
Qed.

Lemma bindTextures_names (scene : Scene) (flags : MaterialFlags)
    (m : BackgroundMaterial) (d : MaterialDefines) :
  omap uploadName (bindTextures scene flags m d)
  `sublist_of` [ "vBackgroundCenter"; "vReflectionControl"; "projectedGroundInfos" ]
  /\ omap boundSampler (bindTextures scene flags m d) `sublist_of` ownSamplers.
Proof.
  unfold bindTextures, ownSamplers.
  destruct (texturesEnabled scene), (_diffuseTexture (properties m)),
    (DiffuseTextureEnabled flags), (_reflectionTexture (properties m)),
    (ReflectionTextureEnabled flags), (isSet d "REFLECTIONBLUR"),
    (isSet d "TEXTURELODSUPPORT"), (isSet d "REFLECTIONFRESNEL"),
    (isSet d "PROJECTED_GROUND");
    cbn; split; repeat constructor.
Qed.

Lemma bindFrameValues_names (scene : Scene) (m : BackgroundMaterial) :
  omap uploadName (bindFrameValues scene m) = []
  /\ omap boundSampler (bindFrameValues scene m) = [].
Proof.
  unfold bindFrameValues.
  by destruct (lightsEnabled scene), (_useLogarithmicDepth _), (truthy_ref _).
Qed.

Lemma uploadUniforms_samplers (scene : Scene) (flags : MaterialFlags)
    (m : BackgroundMaterial) (d : MaterialDefines) :
  omap boundSampler (uploadUniforms scene flags m d) = [].
Proof.
  unfold uploadUniforms.
  by destruct (texturesEnabled scene), (_diffuseTexture (properties m)),
    (DiffuseTextureEnabled flags), (_reflectionTexture (properties m)),
    (ReflectionTextureEnabled flags), (js_gt _ _), (pointsCloud _), (isSet d _).
Qed.

End SlotFacts.

(** X18: within one [bindForSubMesh], the uploads follow one fixed order of
    the uniforms and the bindings the order of the samplers asked of the
    effect, so no uniform is uploaded twice and no sampler is bound twice. *)
Theorem bindForSubMesh_one_write_per_slot `{Collaborators}
    (scene : Scene) (flags : MaterialFlags) (mesh : Mesh)
    (m : BackgroundMaterial) (subMesh : SubMesh) :
  let events := (bindForSubMesh scene flags mesh m subMesh).2 in
  omap uploadName events `sublist_of` uploadOrder
  /\ omap boundSampler events `sublist_of` ownSamplers
  /\ NoDup (omap uploadName events)
  /\ NoDup (omap boundSampler events).
Proof.
  intros events.
  assert (omap uploadName events `sublist_of` uploadOrder
          /\ omap boundSampler events `sublist_of` ownSamplers) as [Hu Hs].
  { subst events. unfold bindForSubMesh.
    destruct (materialDefines subMesh) as [d|]; [|split; apply sublist_nil_l].
    destruct (effect (_drawWrapper subMesh)) as [e|]; [|split; apply sublist_nil_l].
    destruct (_mustRebind _ _ _ _).
    - cbn [snd orb]. unfold rebind.
      set (m' := set_activeEffect (Some e) m).
      destruct (bindFrameValues_names scene m') as [Hfu Hfs].
      destruct (bindTextures_names scene flags m' d) as [Htu Hts].
      pose proof (uploadUniforms_names scene flags m' d) as Huu.
      pose proof (uploadUniforms_samplers scene flags m' d) as Hus.
      rewrite !omap_app, Hfu, Hfs. cbn [omap list_omap uploadName uploadSlot boundSampler
        fmap option_fmap option_map fst app].
      rewrite !app_nil_r. split.
      + change uploadOrder with
          ([ "vDiffuseInfos"; "reflectionMatrix"; "vReflectionInfos";
             "vReflectionMicrosurfaceInfos"; "shadowLevel"; "alpha"; "pointSize";
             "vPrimaryColor"; "vPrimaryColorShadow" ] ++
           "fFovMultiplier" ::
           [ "vBackgroundCenter"; "vReflectionControl"; "projectedGroundInfos" ])%list.
        apply sublist_app.
        * destruct (_ || _ || _ || _); [done | apply sublist_nil_l].
        * by apply sublist_skip.
      + destruct (_ || _ || _ || _); rewrite ?Hus; exact Hts.
    - destruct (needToAlwaysBindUniformBuffers _); cbn [snd orb];
        destruct (bindFrameValues_names scene (set_needToBindSceneUbo true (set_activeEffect (Some e) m)))
          as [Hfu Hfs];
        destruct (bindFrameValues_names scene (set_activeEffect (Some e) m)) as [Hfu' Hfs'];
        destruct (negb _); rewrite ?omap_app, ?Hfu, ?Hfs, ?Hfu', ?Hfs';
        split; cbn; apply sublist_nil_l. }
  repeat split; try done.
  - eapply sublist_NoDup; [|exact Hu]. apply (bool_decide_unpack _). by vm_compute.
  - eapply sublist_NoDup; [|exact Hs]. apply (bool_decide_unpack _). by vm_compute.
Qed.

(** ** Readiness, then binding *)

(** X19: once a call has gone past the frozen fast path and answered true,
    [bindForSubMesh] on the resulting sub-mesh finds the define set and the
    effect: it makes that effect the active one, sets the world matrix and
    flushes the uniform buffer. *)
Theorem ready_sub_mesh_binds `{Collaborators}
    (scene : Scene) (flags : MaterialFlags) (mesh : Mesh) (useInstances : bool)
    (m : BackgroundMaterial) (subMesh : SubMesh) :
  let o := isReadyForSubMesh scene flags mesh useInstances m subMesh in
  frozenAndReady m subMesh useInstances = false ->
  _isReadyForSubMesh m scene (withDefines (definesOf subMesh) subMesh) = false ->
  result o = true ->
  forall scene' flags' mesh' m',
    let bound := bindForSubMesh scene' flags' mesh' m' (subMeshAfter o) in
    _activeEffect bound.1 = effect (_drawWrapper (subMeshAfter o))
    /\ is_Some (_activeEffect bound.1)
    /\ head bound.2 = Some (SetMatrix "world")
    /\ last bound.2 = Some UniformBufferUpdate.
Proof.
  intros o Hfrozen Hshortcut Htrue scene' flags' mesh' m' bound.
  assert (exists d e, materialDefines (subMeshAfter o) = Some d
                      /\ effect (_drawWrapper (subMeshAfter o)) = Some e)
    as (d & e & Hd & He).
  { subst o. revert Htrue. unfold isReadyForSubMesh. rewrite Hfrozen, Hshortcut.
    destruct (refreshTextures _ _ _ _) as [[d1 m1]|[d1 m1]]; [done|].
    destruct (imageProcessingPartition _ _ _); [done|].
    unfold finishReadiness.
    destruct (PrepareDefinesForAttributes _ _) as [changed d2].
    destruct (_isDirty d2); simpl.
    - destruct (effectIsReady _); [|done]. intros _. by eexists _, _.
    - destruct (effect (_drawWrapper subMesh)) as [e|] eqn:Heff; [|done].
      destruct (effectIsReady e); [|done]. intros _. simpl. rewrite Heff.
      by eexists _, _. }
  subst bound. unfold bindForSubMesh. rewrite Hd, He.
  destruct (_mustRebind _ _ _ _); [|destruct (needToAlwaysBindUniformBuffers _)];
    cbn [fst snd]; (split; [reflexivity|]); (split; [by eexists|]);
    (split; [reflexivity|]); rewrite !last_app; reflexivity.
Qed.

(** The first frame of a material without textures, then its first bind. *)
Lemma ready_sub_mesh_binds_witness :
  let o := isReadyForSubMesh plainScene allFlags plainMesh false plainMaterial newSubMesh in
  let bound := bindForSubMesh plainScene allFlags plainMesh (materialAfter o)
                 (subMeshAfter o) in
  _activeEffect bound.1 = effect (_drawWrapper (subMeshAfter o))
  /\ is_Some (_activeEffect bound.1)
  /\ head bound.2 = Some (SetMatrix "world")
  /\ last bound.2 = Some UniformBufferUpdate.
Proof.
  apply (ready_sub_mesh_binds plainScene allFlags plainMesh false plainMaterial newSubMesh).
  - vm_compute. reflexivity.
  - vm_compute. reflexivity.
  - vm_compute. reflexivity.
Defined.
